(** * SynaGen2.0: voice registry, engine cache and synthesis bridge

    A shallow embedding of [python/voice_config.py] (class [VoiceConfig]) and
    [python/spark_bridge.py] (class [VoiceManager], [process_tts_request],
    [handle_list_voices] and the [__main__] block), followed by the properties
    of the orchestration layer.

    Conventions of the embedding.
    - A Python [dict] used as a map is a [gmap]; a result dictionary, whose
      keys differ from branch to branch and may hold [None], is an
      association list of JSON values in insertion order.
    - Module-level and instance state is threaded explicitly: the process
      state is a [World], and a statement sequence is a computation in the
      monad [M], which also carries Python exceptions.
    - Everything outside the repository (the Spark-TTS engine, [soundfile],
      [traceback], the CUDA probe) is a field of [Env]; nothing is assumed
      about these fields.
    - Every effect on the outside world is appended to a log, so that
      "before" and "never" are statements about that log.
    - The registry document has the shape the registry writes: a mapping
      from voice ids to records of a model directory and a display name.
    - Creating a directory and opening a file for writing succeed; what may
      fail is what the code itself guards: a missing model directory, a
      missing voice sample, the engine constructor, the inference, the
      import and the call of [soundfile].
    - The module has been loaded, so [torch] is importable: without it the
      module-level [VoiceManager()] raises and no request is processed. *)

From Stdlib Require Import ZArith Ascii String List Lia Bool.
From stdpp Require Import base option list strings gmap fin_maps.

Open Scope string_scope.

(** ** Paths ([pathlib.PurePosixPath]) *)

Module Path.

(** A parsed path: the root (the empty string, ["/"] or ["//"]) and the
    components, without empty and ["."] components. *)
Record t := mk { root : string; parts : list string }.

#[global] Instance t_eq_dec : EqDecision t.
Proof. solve_decision. Defined.

Fixpoint split_slash (acc s : string) : list string :=
  match s with
  | EmptyString => [acc]
  | String c s' =>
      if Ascii.eqb c "/" then acc :: split_slash "" s'
      else split_slash (acc +:+ String c "") s'
  end.

Fixpoint leading_slashes (s : string) : nat :=
  match s with
  | String c s' => if Ascii.eqb c "/" then S (leading_slashes s') else 0
  | EmptyString => 0
  end.

Definition is_component (x : string) : bool :=
  negb (String.eqb x "") && negb (String.eqb x ".").

(** [Path(s)] *)
Definition of_string (s : string) : t :=
  {| root := match leading_slashes s with
             | 0 => ""
             | 2 => "//"
             | _ => "/"
             end;
     parts := List.filter is_component (split_slash "" s) |}.

Fixpoint join (l : list string) : string :=
  match l with
  | [] => ""
  | [x] => x
  | x :: l' => x +:+ "/" +:+ join l'
  end.

(** [str(p)] *)
Definition to_string (p : t) : string :=
  match parts p with
  | [] => if String.eqb (root p) "" then "." else root p
  | _ => root p +:+ join (parts p)
  end.

(** [p.parent]: the path without its last component; the parent of an
    anchor or of the empty path is the path itself. *)
Definition parent (p : t) : t :=
  {| root := root p; parts := removelast (parts p) |}.

(** [p.absolute()], in the working directory [cwd] *)
Definition absolute (cwd p : t) : t :=
  if String.eqb (root p) "" then
    {| root := root cwd; parts := parts cwd ++ parts p |}
  else p.

(** The path itself and its ancestors that have at least one component,
    outermost first: the directories that [mkdir(parents=True)] may have
    to create. *)
Definition chain (p : t) : list t :=
  List.map (fun n => {| root := root p; parts := firstn n (parts p) |})
           (seq 1 (length (parts p))).

End Path.

(** ** Data *)

(** A registry entry: the value stored under a voice id. *)
Record Voice := mkVoice { model_dir : string; display_name : string }.

#[global] Instance Voice_eq_dec : EqDecision Voice.
Proof. solve_decision. Defined.

Inductive Device := Cuda | Cpu.

#[global] Instance Device_eq_dec : EqDecision Device.
Proof. solve_decision. Defined.

(** A loaded engine. Python compares engine objects by identity: [eng_id] is
    the serial number of the constructor call that made the object. *)
Record Engine := mkEngine {
  eng_id : nat;
  eng_model_dir : string;
  eng_device : Device
}.

#[global] Instance Engine_eq_dec : EqDecision Engine.
Proof. solve_decision. Defined.

(** Audio samples, as the engine returns them. *)
Definition Wav := list Z.

(** JSON values of the result dictionaries. *)
#[warnings="-register-all"]
Inductive json :=
| JNull
| JBool (b : bool)
| JStr (s : string)
| JObj (fields : list (string * json)).

Definition Dict := list (string * json).

(** Exception classes that the bridge raises or tells apart. *)
Inductive exn_class :=
| ImportError
| ModuleNotFoundError
| FileNotFoundError
| RuntimeError
| ValueError
| KeyError
| JSONDecodeError
| OtherError.

#[global] Instance exn_class_eq_dec : EqDecision exn_class.
Proof. solve_decision. Defined.

(** An exception: its class and [str(e)]. *)
Record exn := Exn { exn_cls : exn_class; exn_msg : string }.

(** [except (ImportError, ModuleNotFoundError)] *)
Definition is_import_error (e : exn) : bool :=
  match exn_cls e with
  | ImportError | ModuleNotFoundError => true
  | _ => false
  end.

(** [except FileNotFoundError] *)
Definition is_file_not_found (e : exn) : bool :=
  match exn_cls e with
  | FileNotFoundError => true
  | _ => false
  end.

(** The two ways the bridge calls [SparkTTS.inference]. *)
Inductive inference_args :=
| Cloning (text : option string) (prompt_speech_path : Path.t) (prompt_text : string)
| Parametric (text : option string) (gender pitch speed : string).

(** ** The file system *)

(** What a file holds. The registry file is a JSON document; it is kept by
    its value, [json.dump] and [json.load] being taken as a faithful codec of
    a mapping from strings to records of two strings. *)
Inductive content :=
| JsonDoc (doc : gmap string Voice)
| Bytes (b : list Z)
| Text (lines : list string)
| Audio (wav : Wav) (samplerate : Z).

Inductive node :=
| Dir
| File (c : content).

(** Effects on the outside world, in the order in which they happen. *)
Inductive event :=
| EMkdir (p : string)
| EWrite (p : string) (c : content)
| EPrint (s : string)
| EGetTts (voice_id : option string)
| ESparkTTS (model_dir : string) (dev : Device)
| EInference (e : Engine) (a : inference_args)
| ESfWrite (p : string).

(** The operating-system side of the process: the files, keyed by the
    normal form of their path, and the log of effects. Creating a directory
    and opening a file for writing are taken to succeed. *)
Record OS := mkOS {
  files : gmap string node;
  effects : list event
}.

Definition log (ev : event) (o : OS) : OS :=
  {| files := files o; effects := effects o ++ [ev] |}.

(** [p.exists()]: the working directory and the root always exist. *)
Definition path_exists (o : OS) (p : Path.t) : bool :=
  match Path.parts p with
  | [] => true
  | _ => bool_decide (is_Some (files o !! Path.to_string p))
  end.

(** [os.path.exists(s)]: the empty string names no file. *)
Definition os_path_exists (o : OS) (s : string) : bool :=
  negb (String.eqb s "") && path_exists o (Path.of_string s).

Definition ensure_dir (fs : gmap string node) (p : Path.t) : gmap string node :=
  match fs !! Path.to_string p with
  | Some _ => fs
  | None => <[Path.to_string p := Dir]> fs
  end.

(** [p.mkdir(parents=True, exist_ok=True)] *)
Definition mkdir_parents (p : Path.t) (o : OS) : OS :=
  {| files := fold_left ensure_dir (Path.chain p) (files o);
     effects := effects o ++ [EMkdir (Path.to_string p)] |}.

(** [with open(p, "w") as f: f.write(...)]: the file is replaced. *)
Definition write_file (p : Path.t) (c : content) (o : OS) : OS :=
  {| files := <[Path.to_string p := File c]> (files o);
     effects := effects o ++ [EWrite (Path.to_string p) c] |}.

(** What [sf.write(path, wav, samplerate=rate)] leaves when it writes. *)
Definition store_audio (path : string) (wav : Wav) (rate : Z) (o : OS) : OS :=
  {| files := <[Path.to_string (Path.of_string path) := File (Audio wav rate)]> (files o);
     effects := effects o |}.

(** [os.path.join(a, b)] for a relative [b] *)
Definition os_path_join (a b : string) : string :=
  if String.eqb a "" then b
  else if String.eqb (String.substring (String.length a - 1) 1 a) "/" then a +:+ b
  else a +:+ "/" +:+ b.

(** ** The registry ([voice_config.py]) *)

Module VoiceConfig.

Definition CONFIG_FILE : string := "../config/voice_registry.json".

(** An instance: [self.config_path] and [self.voices]. *)
Record t := mk { config_path : string; voices : gmap string Voice }.

(** [_load_config]: the document if the file exists, the empty mapping
    otherwise; a file that is no JSON document makes [json.load] raise. *)
Definition _load_config (path : string) (o : OS) : exn + gmap string Voice :=
  if os_path_exists o path then
    match files o !! Path.to_string (Path.of_string path) with
    | Some (File (JsonDoc d)) => inr d
    | _ => inl (Exn JSONDecodeError "Expecting value")
    end
  else inr ∅.

(** [_save_config]: the whole mapping replaces the document. *)
Definition _save_config (c : t) (o : OS) : OS :=
  write_file (Path.of_string (config_path c)) (JsonDoc (voices c)) o.

(** [__init__], for the module directory [dir] *)
Definition init (dir : string) (o : OS) : exn + t :=
  let path := os_path_join dir CONFIG_FILE in
  match _load_config path o with
  | inl e => inl e
  | inr d => inr {| config_path := path; voices := d |}
  end.

Definition add_voice (voice_id model_dir display_name : string)
    (c : t) (o : OS) : t * OS :=
  let c' := {| config_path := config_path c;
               voices := <[voice_id := mkVoice model_dir display_name]> (voices c) |} in
  (c', _save_config c' o).

Definition remove_voice (voice_id : string) (c : t) (o : OS) : bool * t * OS :=
  if bool_decide (is_Some (voices c !! voice_id)) then
    let c' := {| config_path := config_path c;
                 voices := delete voice_id (voices c) |} in
    (true, c', _save_config c' o)
  else (false, c, o).

Definition get_voice (voice_id : string) (c : t) : option Voice :=
  voices c !! voice_id.

Definition list_voices (c : t) : gmap string Voice := voices c.

Definition validate_voice (voice_id : string) (c : t) (o : OS) : bool :=
  match get_voice voice_id c with
  | None => false
  | Some voice => os_path_exists o (model_dir voice)
  end.

End VoiceConfig.

(** ** The process state and the monad of the bridge *)

(** What the bridge takes from outside the repository. [SparkTTS_init n] is
    the outcome of the [n]-th call of the engine constructor ([None]: the
    engine is built), so that a construction may fail once and succeed
    later. *)
Record Env := mkEnv {
  SPARK_TTS_AVAILABLE : bool;
  CUDA_AVAILABLE : bool;
  CUDA_DEVICE : string;
  cwd : Path.t;
  SparkTTS_init : nat -> string -> Device -> option exn;
  inference : Engine -> inference_args -> exn + Wav;
  soundfile_import : option exn;
  sf_write : string -> Wav -> Z -> exn + bool;
  format_exc : exn -> string
}.

(** The global [voice_manager] and the operating-system state. *)
Record World := mkWorld {
  os : OS;
  voice_config : VoiceConfig.t;
  tts_models : gmap string Engine;
  constructions : nat
}.

Inductive result (A : Type) :=
| Ok (a : A)
| Raise (e : exn).
Arguments Ok {A} a.
Arguments Raise {A} e.

Definition M (A : Type) : Type := World -> result A * World.

Definition ret {A} (a : A) : M A := fun w => (Ok a, w).

Definition raise {A} (e : exn) : M A := fun w => (Raise e, w).

Definition bind {A B} (m : M A) (k : A -> M B) : M B :=
  fun w => match m w with
           | (Ok a, w') => k a w'
           | (Raise e, w') => (Raise e, w')
           end.

(** [try: m  except Exception as e: h e] *)
Definition try_except {A} (m : M A) (h : exn -> M A) : M A :=
  fun w => match m w with
           | (Ok a, w') => (Ok a, w')
           | (Raise e, w') => h e w'
           end.

Notation "'do' x <- m ; k" := (bind m (fun x => k))
  (at level 10, x name, m at level 100, k at level 200).
Notation "'exec' m ; k" := (bind m (fun _ => k))
  (at level 10, m at level 100, k at level 200).

Definition gets {A} (f : World -> A) : M A := fun w => (Ok (f w), w).

Definition with_os (f : OS -> OS) (w : World) : World :=
  {| os := f (os w); voice_config := voice_config w;
     tts_models := tts_models w; constructions := constructions w |}.

Definition on_os (f : OS -> OS) : M unit := fun w => (Ok tt, with_os f w).

Definition emit (ev : event) : M unit := on_os (log ev).

(** The state after [self.tts_models[key] = e]. *)
Definition with_model (key : string) (e : Engine) (w : World) : World :=
  {| os := os w; voice_config := voice_config w;
     tts_models := <[key := e]> (tts_models w);
     constructions := constructions w |}.

Definition store_model (key : string) (e : Engine) : M unit :=
  fun w => (Ok tt, with_model key e w).

(** The state after one more call of the engine constructor. *)
Definition constructing (model_dir : string) (dev : Device) (w : World) : World :=
  {| os := log (ESparkTTS model_dir dev) (os w);
     voice_config := voice_config w;
     tts_models := tts_models w;
     constructions := S (constructions w) |}.

(** [self.tts_models[key]] *)
Definition load_model (key : string) : M Engine :=
  fun w => match tts_models w !! key with
           | Some e => (Ok e, w)
           | None => (Raise (Exn KeyError key), w)
           end.

(** [raise ...] under a condition, nothing otherwise *)
Definition raise_if (b : bool) (e : exn) : M unit :=
  if b then raise e else ret tt.

(** Python truthiness of the values the bridge tests. *)
Definition truthy_voice (v : option Voice) : bool :=
  match v with Some _ => true | None => false end.

Definition truthy_str (s : option string) : bool :=
  match s with
  | Some s => negb (String.eqb s "")
  | None => false
  end.

(** [str(x)] for an optional string *)
Definition py_str (s : option string) : string :=
  match s with Some s => s | None => "None" end.

(** [t[:200] + "..." if len(t) > 200 else t] *)
Definition truncate_trace (t : string) : string :=
  if Nat.ltb 200 (String.length t) then String.substring 0 200 t +:+ "..." else t.

(** The bytes of the fallback file. *)
Definition EMPTY_WAV : list Z :=
  [82; 73; 70; 70; 36; 0; 0; 0; 87; 65; 86; 69; 102; 109; 116; 32;
   16; 0; 0; 0; 1; 0; 1; 0; 0; 4; 0; 0; 0; 4; 0; 0; 1; 0; 8; 0;
   100; 97; 116; 97; 0; 0; 0; 0]%Z.

Definition ERROR_LOG_PATH : string := "tts_error.log".

Definition DEFAULT_MODEL : string := "pretrained_models/Spark-TTS-0.5B".

(** [Path("pretrained_models/Spark-TTS-0.5B").absolute()] *)
Definition default_model_dir (env : Env) : Path.t :=
  Path.absolute (cwd env) (Path.of_string DEFAULT_MODEL).

(** The parsed command line of the bridge. *)
Inductive Action := ActTts | ActListVoices.

Record Args := mkArgs {
  action : Action;
  text : option string;
  voice_id : option string;
  custom_voice : option string;
  output : string
}.

(** ** The engine cache and the request processor ([spark_bridge.py]) *)

Section Bridge.

Variable env : Env.

(** [self.device] *)
Definition device : Device := if CUDA_AVAILABLE env then Cuda else Cpu.

(** The call [SparkTTS(model_dir, device)]: a new object, or the
    exception the constructor raises. *)
Definition SparkTTS (model_dir : string) (dev : Device) : M Engine :=
  fun w =>
    let n := constructions w in
    match SparkTTS_init env n model_dir dev with
    | Some e => (Raise e, constructing model_dir dev w)
    | None => (Ok (mkEngine n model_dir dev), constructing model_dir dev w)
    end.

(** The first branch of [get_tts]: the engine under ["default"]. *)
Definition default_tts : M Engine :=
  do models <- gets tts_models;
  exec (if bool_decide (is_Some (models !! "default")) then ret tt
        else
          let model_dir := default_model_dir env in
          do present <- gets (fun w => path_exists (os w) model_dir);
          exec raise_if (negb present)
                 (Exn FileNotFoundError
                    ("Default model directory not found: "
                     +:+ Path.to_string model_dir
                     +:+ ". Please run download_model.py first."));
          do e <- SparkTTS (Path.to_string model_dir) device;
          store_model "default" e);
  load_model "default".

(** The second branch of [get_tts]: the engine of a registered voice. *)
Definition voice_tts (voice_id : string) : M Engine :=
  do models <- gets tts_models;
  exec (if bool_decide (is_Some (models !! voice_id)) then ret tt
        else
          do cfg <- gets voice_config;
          match VoiceConfig.get_voice voice_id cfg with
          | None => raise (Exn OtherError "'NoneType' object is not subscriptable")
          | Some voice =>
              let model_dir := model_dir voice in
              do present <- gets (fun w => os_path_exists (os w) model_dir);
              exec raise_if (negb present)
                     (Exn FileNotFoundError
                        ("Model directory for voice '" +:+ voice_id
                         +:+ "' not found: " +:+ model_dir));
              do e <- try_except (SparkTTS model_dir device)
                        (fun e => raise (Exn RuntimeError
                                           ("Failed to load model for voice '"
                                            +:+ voice_id +:+ "': " +:+ exn_msg e)));
              store_model voice_id e
          end);
  load_model voice_id.

(** [VoiceManager.get_tts] *)
Definition get_tts (voice_id : option string) : M Engine :=
  exec emit (EGetTts voice_id);
  do cfg <- gets voice_config;
  match voice_id with
  | None => default_tts
  | Some vid =>
      if negb (truthy_voice (VoiceConfig.get_voice vid cfg)) then default_tts
      else voice_tts vid
  end.

(** [VoiceManager.list_voices]. The result is a dictionary keyed by voice
    id. *)
Definition list_voices : M (gmap string json) :=
  gets (fun w =>
    let result :=
      map_imap (fun voice_id details =>
        Some (JObj [("display_name", JStr (display_name details));
                    ("model_dir", JStr (model_dir details));
                    ("loaded", JBool (bool_decide (is_Some (tts_models w !! voice_id))));
                    ("valid", JBool (os_path_exists (os w) (model_dir details)))]))
        (VoiceConfig.list_voices (voice_config w)) in
    if bool_decide (is_Some (result !! "default")) then result
    else
      let model_dir := default_model_dir env in
      <["default" :=
          JObj [("display_name", JStr "Default Voice");
                ("model_dir", JStr (Path.to_string model_dir));
                ("loaded", JBool (bool_decide (is_Some (tts_models w !! "default"))));
                ("valid", JBool (path_exists (os w) model_dir))]]> result).

(** The call [tts_engine.inference(...)] *)
Definition call_inference (e : Engine) (a : inference_args) : M Wav :=
  exec emit (EInference e a);
  match inference env e a with
  | inl ex => raise ex
  | inr wav => ret wav
  end.

(** [import soundfile as sf; sf.write(path, wav, samplerate=rate)] *)
Definition soundfile_write (path : string) (wav : Wav) (rate : Z) : M unit :=
  match soundfile_import env with
  | Some ex => raise ex
  | None =>
      exec emit (ESfWrite path);
      match sf_write env path wav rate with
      | inl ex => raise ex
      | inr true => on_os (store_audio path wav rate)
      | inr false => ret tt
      end
  end.

(** The diagnostic record of the two last handlers. *)
Definition error_log (text voice_id custom_voice_path : option string)
    (output_path : Path.t) (e : exn) : content :=
  Text ["Error processing text: " +:+ py_str text;
        "Voice ID: " +:+ py_str voice_id;
        "Custom voice path: " +:+ py_str custom_voice_path;
        "Output path: " +:+ Path.to_string output_path;
        "Exception: " +:+ exn_msg e;
        "Traceback:"; format_exc env e].

Definition failure (prefix : string) (text voice_id custom_voice_path : option string)
    (output_path : Path.t) (e : exn) : M Dict :=
  let error_trace := format_exc env e in
  exec on_os (write_file (Path.of_string ERROR_LOG_PATH)
                (error_log text voice_id custom_voice_path output_path e));
  ret [("success", JBool false);
       ("message", JStr (prefix +:+ exn_msg e));
       ("file", JNull);
       ("trace", JStr (truncate_trace error_trace));
       ("log_file", JStr ERROR_LOG_PATH)].

(** The three [except] clauses of [process_tts_request], in order. *)
Definition handler (text voice_id custom_voice_path : option string)
    (output_path : Path.t) (e : exn) : M Dict :=
  if is_import_error e then
    exec emit (EPrint ("Error importing Spark-TTS: " +:+ exn_msg e));
    exec on_os (write_file output_path (Bytes EMPTY_WAV));
    ret [("success", JBool false);
         ("message", JStr ("Spark-TTS is not properly installed: " +:+ exn_msg e
                           +:+ ". Created an empty audio file as fallback."));
         ("file", JStr (Path.to_string output_path))]
  else if is_file_not_found e then
    failure "File not found: " text voice_id custom_voice_path output_path e
  else
    failure "Error generating audio: " text voice_id custom_voice_path output_path e.

(** The [try] block of [process_tts_request]; [torch.no_grad()] has no
    effect on the state modelled here. *)
Definition synthesize (text voice_id custom_voice_path : option string)
    (output_path : Path.t) : M Dict :=
  exec raise_if (negb (SPARK_TTS_AVAILABLE env))
         (Exn ImportError "Spark-TTS modules not available");
  do tts_engine <- get_tts voice_id;
  do wav <-
    (if truthy_str custom_voice_path then
       let voice_path := Path.of_string (py_str custom_voice_path) in
       do present <- gets (fun w => path_exists (os w) voice_path);
       exec raise_if (negb present)
              (Exn FileNotFoundError
                 ("Voice file not found: " +:+ py_str custom_voice_path));
       call_inference tts_engine
         (Cloning text voice_path "This is a sample voice.")
     else
       call_inference tts_engine
         (Parametric text "male" "moderate" "moderate"));
  exec soundfile_write (Path.to_string output_path) wav 16000;
  do created <- gets (fun w => path_exists (os w) output_path);
  exec raise_if (negb created)
         (Exn FileNotFoundError
            ("Output file was not created: " +:+ Path.to_string output_path));
  do cfg <- gets voice_config;
  let voice_info :=
    if truthy_str voice_id then
      match VoiceConfig.get_voice (py_str voice_id) cfg with
      | Some voice_config =>
          [("voice_id", JStr (py_str voice_id));
           ("voice_name", JStr (display_name voice_config))]
      | None => []
      end
    else [] in
  ret [("success", JBool true);
       ("file", JStr (Path.to_string output_path));
       ("message", JStr ("Audio generated successfully using "
                         +:+ (if CUDA_AVAILABLE env then CUDA_DEVICE env else "CPU")));
       ("voice", JObj voice_info)].

(** [process_tts_request] *)
Definition process_tts_request (text voice_id custom_voice_path : option string)
    (output_path : string) : M Dict :=
  let output_path := Path.of_string output_path in
  exec on_os (mkdir_parents (Path.parent output_path));
  try_except (synthesize text voice_id custom_voice_path output_path)
             (handler text voice_id custom_voice_path output_path).

(** [handle_list_voices]. The entries of ["voices"] come in the order of the
    map, not in the insertion order of the Python dictionary. *)
Definition handle_list_voices : M Dict :=
  try_except
    (do voices <- list_voices;
     ret [("success", JBool true); ("voices", JObj (map_to_list voices))])
    (fun e =>
       ret [("success", JBool false);
            ("message", JStr ("Error listing voices: " +:+ exn_msg e));
            ("trace", JStr (truncate_trace (format_exc env e)))]).

(** The [__main__] block after [parse_args]: the dictionary printed as the
    one line of JSON. *)
Definition main (args : Args) : M Dict :=
  try_except
    (match action args with
     | ActListVoices => handle_list_voices
     | ActTts =>
         exec raise_if (negb (truthy_str (text args)))
                (Exn ValueError "--text argument is required for TTS action");
         process_tts_request (text args) (voice_id args) (custom_voice args)
           (output args)
     end)
    (fun e =>
       ret [("success", JBool false);
            ("message", JStr ("Unexpected error: " +:+ exn_msg e));
            ("trace", JStr (format_exc env e))]).

End Bridge.

(** ** The process: start-up and the operations on the global manager *)

(** [VoiceManager.__init__]: an empty cache and the registry as loaded from
    the document, for the directory [dir] of the module. *)
Definition VoiceManager_init (dir : string) (o : OS) : exn + World :=
  match VoiceConfig.init dir o with
  | inl e => inl e
  | inr c => inr {| os := o; voice_config := c; tts_models := ∅; constructions := 0 |}
  end.

(** What one process does to its [voice_manager], one operation at a time. *)
Inductive op :=
| OpGetTts (voice_id : option string)
| OpListVoices
| OpAddVoice (voice_id model_dir display_name : string)
| OpRemoveVoice (voice_id : string)
| OpProcess (text voice_id custom_voice_path : option string) (output_path : string)
| OpMain (args : Args).

(** [voice_manager.voice_config.add_voice(...)] and [remove_voice(...)] *)
Definition add_voice (voice_id model_dir display_name : string) (w : World) : World :=
  let '(c, o) := VoiceConfig.add_voice voice_id model_dir display_name
                   (voice_config w) (os w) in
  {| os := o; voice_config := c; tts_models := tts_models w;
     constructions := constructions w |}.

Definition remove_voice (voice_id : string) (w : World) : World :=
  let '(_, c, o) := VoiceConfig.remove_voice voice_id (voice_config w) (os w) in
  {| os := o; voice_config := c; tts_models := tts_models w;
     constructions := constructions w |}.

(** The state after an operation; what the operation returns or raises is
    dropped. *)
Definition run_op (env : Env) (o : op) (w : World) : World :=
  match o with
  | OpGetTts voice_id => (get_tts env voice_id w).2
  | OpListVoices => (list_voices env w).2
  | OpAddVoice voice_id model_dir display_name =>
      add_voice voice_id model_dir display_name w
  | OpRemoveVoice voice_id => remove_voice voice_id w
  | OpProcess text voice_id custom_voice_path output_path =>
      (process_tts_request env text voice_id custom_voice_path output_path w).2
  | OpMain args => (main env args w).2
  end.

Definition run_ops (env : Env) (ops : list op) (w : World) : World :=
  fold_left (fun w o => run_op env o w) ops w.

(** The states a process goes through. *)
Inductive reachable (env : Env) : World -> Prop :=
| reach_init dir o w :
    VoiceManager_init dir o = inr w -> reachable env w
| reach_op o w :
    reachable env w -> reachable env (run_op env o w).

(** The cache holds objects that were constructed, each under one key. *)
Definition cache_wf (w : World) : Prop :=
  (forall k e, tts_models w !! k = Some e -> eng_id e < constructions w) /\
  (forall k1 k2 e1 e2,
      tts_models w !! k1 = Some e1 -> tts_models w !! k2 = Some e2 ->
      eng_id e1 = eng_id e2 -> k1 = k2).

(** [voice_id] is [None] or has no entry in the registry of [w]. *)
Definition unregistered (voice_id : option string) (w : World) : Prop :=
  match voice_id with
  | None => True
  | Some v => VoiceConfig.get_voice v (voice_config w) = None
  end.


(** ** Notions used by the properties *)

(** The four ways a branch of [get_tts] ends for the cache key [key]: the
    engine is in the cache; it is not and the model directory is missing; it
    is not and the constructor raises; it is not and the constructor returns
    a new engine, which is stored. *)
Inductive cache_step (w : World) (key : string) : result Engine * World -> Prop :=
| step_hit e :
    tts_models w !! key = Some e ->
    cache_step w key (Ok e, w)
| step_no_model ex :
    tts_models w !! key = None ->
    cache_step w key (Raise ex, w)
| step_init_fails dir dev ex :
    tts_models w !! key = None ->
    cache_step w key (Raise ex, constructing dir dev w)
| step_built dir dev :
    tts_models w !! key = None ->
    cache_step w key
      (Ok (mkEngine (constructions w) dir dev),
       with_model key (mkEngine (constructions w) dir dev) (constructing dir dev w)).

(** [w'] comes after [w]: the cache has kept its entries, no file has gone,
    the log has grown at its end, and the cache is still well formed. *)
Record extends (w w' : World) : Prop := mk_extends {
  ext_cache : forall k e, tts_models w !! k = Some e -> tts_models w' !! k = Some e;
  ext_files : forall p, is_Some (files (os w) !! p) -> is_Some (files (os w') !! p);
  ext_log : exists evs, effects (os w') = (effects (os w) ++ evs)%list;
  ext_count : constructions w <= constructions w';
  ext_wf : cache_wf w -> cache_wf w'
}.

(** The same for a change of the operating-system state alone. *)
Definition os_extends (o o' : OS) : Prop :=
  (forall p, is_Some (files o !! p) -> is_Some (files o' !! p)) /\
  exists evs, effects o' = (effects o ++ evs)%list.

(** A computation that only ever moves the world forward. *)
Definition respects {A} (m : M A) : Prop := forall w, extends w (m w).2.

(** ** A sample installation

    One concrete environment and start-up state, on which the operations
    are run in the examples: the built-in model and two voice directories
    exist, and the registry document holds three voices, one of them under
    the id ["default"]. The constructor fails on its first call when that
    call is for ["/voices/broken"]. *)

Definition demo_registry : gmap string Voice :=
  <["alice" := mkVoice "/voices/alt" "Alice"]>
    (<["broken" := mkVoice "/voices/broken" "Broken"]>
       (<["default" := mkVoice "/voices/alt" "Alt"]> ∅)).

Definition demo_os : OS :=
  {| files :=
       <["/app/python/../config/voice_registry.json" := File (JsonDoc demo_registry)]>
         (<["/app/pretrained_models/Spark-TTS-0.5B" := Dir]>
            (<["/voices/alt" := Dir]> (<["/voices/broken" := Dir]> ∅)));
     effects := [] |}.

Definition demo_env : Env :=
  {| SPARK_TTS_AVAILABLE := true;
     CUDA_AVAILABLE := false;
     CUDA_DEVICE := "Unknown";
     cwd := Path.of_string "/app";
     SparkTTS_init := fun n dir _ =>
       if String.eqb dir "/voices/broken" && Nat.eqb n 0
       then Some (Exn OtherError "config.yaml is malformed")
       else None;
     inference := fun _ _ => inr [0%Z; 1%Z];
     soundfile_import := None;
     sf_write := fun _ _ _ => inr true;
     format_exc := fun e => "Traceback (most recent call last): " +:+ exn_msg e |}.

(** The same installation without the Spark-TTS modules. *)
Definition offline_env : Env :=
  {| SPARK_TTS_AVAILABLE := false;
     CUDA_AVAILABLE := false;
     CUDA_DEVICE := "Unknown";
     cwd := Path.of_string "/app";
     SparkTTS_init := fun _ _ _ => None;
     inference := fun _ _ => inr [];
     soundfile_import := None;
     sf_write := fun _ _ _ => inr true;
     format_exc := fun e => "Traceback (most recent call last): " +:+ exn_msg e |}.

Definition demo_config : VoiceConfig.t :=
  {| VoiceConfig.config_path := "/app/python/../config/voice_registry.json";
     VoiceConfig.voices := demo_registry |}.

(** The state of the bridge process right after start-up. *)
Definition demo_world : World :=
  {| os := demo_os; voice_config := demo_config; tts_models := ∅;
     constructions := 0 |}.

(** The start-up state of an installation with no model, no voice and no
    registry document. *)
Definition bare_world : World :=
  {| os := {| files := ∅; effects := [] |};
     voice_config :=
       {| VoiceConfig.config_path := "/app/python/../config/voice_registry.json";
          VoiceConfig.voices := ∅ |};
     tts_models := ∅;
     constructions := 0 |}.

(** ** Further notions and the two command-line tools *)

(** [d.get(k)] on a result dictionary *)
Fixpoint dict_get (k : string) (d : Dict) : option json :=
  match d with
  | [] => None
  | (k', v) :: d' => if String.eqb k k' then Some v else dict_get k d'
  end.

(** The cache key that [get_tts] serves [voice_id] from: the id of a
    registered voice, ["default"] otherwise. *)
Definition cache_key (voice_id : option string) (w : World) : string :=
  match voice_id with
  | None => "default"
  | Some v =>
      if truthy_voice (VoiceConfig.get_voice v (voice_config w)) then v
      else "default"
  end.





(** A path in normal form: one of the three roots, and components that are
    not empty, not ["."] and hold no separator. *)
Fixpoint no_slash (s : string) : bool :=
  match s with
  | EmptyString => true
  | String c s' => negb (Ascii.eqb c "/") && no_slash s'
  end.

Definition normal_path (p : Path.t) : Prop :=
  (Path.root p = "" \/ Path.root p = "/" \/ Path.root p = "//") /\
  Forall (fun x => Path.is_component x = true /\ no_slash x = true) (Path.parts p).

(** [print(s)] *)
Definition print (s : string) (o : OS) : OS := log (EPrint s) o.

(** [str(b)] for a Boolean *)
Definition py_bool (b : bool) : string := if b then "True" else "False".

(** The newline character of the f-strings. *)
Definition nl : string := String (ascii_of_nat 10) "".

(** *** [manage_voices.py] *)

Module ManageVoices.

(** The parsed command line; [NoCommand] is a call without subcommand. *)
Inductive Command :=
| Add (voice_id model_dir display_name : string)
| Remove (voice_id : string)
| List
| NoCommand.

(** The body of the loop of [list], for one item of [voices.items()]. *)
Definition print_voice (config : VoiceConfig.t) (o : OS) (item : string * Voice) : OS :=
  let o1 := print (nl +:+ "ID: " +:+ item.1) o in
  let o2 := print ("Name: " +:+ display_name item.2) o1 in
  let o3 := print ("Model Directory: " +:+ model_dir item.2) o2 in
  print ("Valid: " +:+ py_bool (VoiceConfig.validate_voice item.1 config o3)) o3.

(** [main] after [parse_args], for the directory [dir] of [voice_config.py].
    The items of [list] come in the order of the map, not in the insertion
    order of the Python dictionary. *)
Definition main (dir : string) (cmd : Command) (o : OS) : exn + OS :=
  match VoiceConfig.init dir o with
  | inl e => inl e
  | inr config =>
      inr match cmd with
          | Add voice_id model_dir display_name =>
              let '(_, o') :=
                VoiceConfig.add_voice voice_id model_dir display_name config o in
              print ("Voice '" +:+ voice_id +:+ "' added/updated successfully") o'
          | Remove voice_id =>
              let '(removed, _, o') := VoiceConfig.remove_voice voice_id config o in
              if removed
              then print ("Voice '" +:+ voice_id +:+ "' removed successfully") o'
              else print ("Voice '" +:+ voice_id +:+ "' not found") o'
          | List =>
              let voices := VoiceConfig.list_voices config in
              let o1 := print (nl +:+ "Registered Voices:") o in
              let o2 := print "================" o1 in
              fold_left (print_voice config) (map_to_list voices) o2
          | NoCommand => o
          end
  end.



End ManageVoices.

(** *** [download_model.py] *)

Module DownloadModel.

(** What the script takes from outside: the outcome of the two imports, the
    CUDA probe (device count, device name, CUDA version) and
    [snapshot_download], of which nothing is assumed: it may raise and may
    change the files in any way. *)
Record Env := mkEnv {
  imports : option exn;
  cuda : option (string * string * string);
  snapshot_download : string -> string -> OS -> option exn * OS
}.

(** The state of a run: the operating system and the calls of
    [snapshot_download] made so far, each with its [repo_id] and
    [local_dir]. *)
Record Run := mkRun {
  run_os : OS;
  downloads : list (string * string)
}.


Definition say (s : string) (r : Run) : Run :=
  {| run_os := print s (run_os r); downloads := downloads r |}.



End DownloadModel.

(** Statements that leave the engine cache and the count of constructor
    calls as they are. *)
Definition keeps_cache {A} (m : M A) : Prop :=
  forall w, tts_models (m w).2 = tts_models w /\
            constructions (m w).2 = constructions w.


(** The two parts of the [try] block of [process_tts_request] that follow
    engine resolution, under names of their own: the call of the engine,
    and everything from there to the [return]. *)
Definition obtain_wav (env : Env) (text custom_voice_path : option string)
    (tts_engine : Engine) : M Wav :=
  if truthy_str custom_voice_path then
    let voice_path := Path.of_string (py_str custom_voice_path) in
    do present <- gets (fun w => path_exists (os w) voice_path);
    exec raise_if (negb present)
           (Exn FileNotFoundError
              ("Voice file not found: " +:+ py_str custom_voice_path));
    call_inference env tts_engine
      (Cloning text voice_path "This is a sample voice.")
  else
    call_inference env tts_engine
      (Parametric text "male" "moderate" "moderate").

(** The [voice] entry of a successful result. *)
Definition voice_info (voice_id : option string) (cfg : VoiceConfig.t) : Dict :=
  if truthy_str voice_id then
    match VoiceConfig.get_voice (py_str voice_id) cfg with
    | Some voice_config =>
        [("voice_id", JStr (py_str voice_id));
         ("voice_name", JStr (display_name voice_config))]
    | None => []
    end
  else [].

Definition finish_request (env : Env) (text voice_id custom_voice_path : option string)
    (output_path : Path.t) (tts_engine : Engine) : M Dict :=
  do wav <- obtain_wav env text custom_voice_path tts_engine;
  exec soundfile_write env (Path.to_string output_path) wav 16000;
  do created <- gets (fun w => path_exists (os w) output_path);
  exec raise_if (negb created)
         (Exn FileNotFoundError
            ("Output file was not created: " +:+ Path.to_string output_path));
  do cfg <- gets voice_config;
  ret [("success", JBool true);
       ("file", JStr (Path.to_string output_path));
       ("message", JStr ("Audio generated successfully using "
                         +:+ (if CUDA_AVAILABLE env then CUDA_DEVICE env else "CPU")));
       ("voice", JObj (voice_info voice_id cfg))].

(** Every engine of the cache is bound to the device of the process. *)
Definition cache_on_device (env : Env) (w : World) : Prop :=
  forall k e, tts_models w !! k = Some e -> eng_device e = device env.

(** The arguments of the one call of the engine that a request makes. *)
Definition request_args (text custom_voice_path : option string) : inference_args :=
  if truthy_str custom_voice_path then
    Cloning text (Path.of_string (py_str custom_voice_path)) "This is a sample voice."
  else Parametric text "male" "moderate" "moderate".

(** The prefix that the two last handlers put before [str(e)]. *)
Definition failure_prefix (e : exn) : string :=
  if is_file_not_found e then "File not found: " else "Error generating audio: ".

(** The dictionary of the two last handlers. *)
Definition failure_report (env : Env) (e : exn) : Dict :=
  [("success", JBool false);
   ("message", JStr (failure_prefix e +:+ exn_msg e));
   ("file", JNull);
   ("trace", JStr (truncate_trace (format_exc env e)));
   ("log_file", JStr "tts_error.log")].


(** The dictionary of a successful request. *)
Definition success_report (env : Env) (voice_id : option string)
    (output_path : Path.t) (cfg : VoiceConfig.t) : Dict :=
  [("success", JBool true);
   ("file", JStr (Path.to_string output_path));
   ("message", JStr ("Audio generated successfully using "
                     +:+ (if CUDA_AVAILABLE env then CUDA_DEVICE env else "CPU")));
   ("voice", JObj (voice_info voice_id cfg))].

(** The state in which the [try] block of a request starts. *)
Definition request_start (output_path : string) (w : World) : World :=
  with_os (mkdir_parents (Path.parent (Path.of_string output_path))) w.

(** The entry of [VoiceManager.list_voices] for a registered voice, and the
    synthetic entry for the default engine. *)
Definition voice_entry (w : World) (voice_id : string) (details : Voice) : json :=
  JObj [("display_name", JStr (display_name details));
        ("model_dir", JStr (model_dir details));
        ("loaded", JBool (bool_decide (is_Some (tts_models w !! voice_id))));
        ("valid", JBool (VoiceConfig.validate_voice voice_id (voice_config w) (os w)))].

Definition default_entry (env : Env) (w : World) : json :=
  JObj [("display_name", JStr "Default Voice");
        ("model_dir", JStr (Path.to_string (default_model_dir env)));
        ("loaded", JBool (bool_decide (is_Some (tts_models w !! "default"))));
        ("valid", JBool (path_exists (os w) (default_model_dir env)))].

(** The [loaded] flag of an entry of the listing. *)
Definition loaded_flag (entry : json) : option json :=
  match entry with
  | JObj fields => dict_get "loaded" fields
  | _ => None
  end.

(** *** Further sample installations *)


(** The sample installation with an engine whose inference raises. *)
Definition failing_inference_env : Env :=
  {| SPARK_TTS_AVAILABLE := true;
     CUDA_AVAILABLE := false;
     CUDA_DEVICE := "Unknown";
     cwd := Path.of_string "/app";
     SparkTTS_init := fun _ _ _ => None;
     inference := fun _ _ => inl (Exn RuntimeError "CUDA out of memory");
     soundfile_import := None;
     sf_write := fun _ _ _ => inr true;
     format_exc := fun e => "Traceback (most recent call last): " +:+ exn_msg e |}.

(** The sample installation with a [soundfile] that writes nothing. *)
Definition silent_soundfile_env : Env :=
  {| SPARK_TTS_AVAILABLE := true;
     CUDA_AVAILABLE := false;
     CUDA_DEVICE := "Unknown";
     cwd := Path.of_string "/app";
     SparkTTS_init := fun _ _ _ => None;
     inference := fun _ _ => inr [0%Z; 1%Z];
     soundfile_import := None;
     sf_write := fun _ _ _ => inr false;
     format_exc := fun e => "Traceback (most recent call last): " +:+ exn_msg e |}.



(** The sample start-up state with one more voice, whose model directory
    does not exist. *)
Definition stale_world : World := add_voice "gone" "/voices/gone" "Gone" demo_world.


(** * Properties *)

(** ** The file system *)

Lemma write_file_lookup p c o :
  files (write_file p c o) !! Path.to_string p = Some (File c).
Proof. unfold write_file; simpl. apply lookup_insert_eq. Qed.

Lemma write_file_exists p c o : path_exists (write_file p c o) p = true.
Proof.
  unfold path_exists. destruct (Path.parts p); [done |].
  apply bool_decide_eq_true_2. rewrite write_file_lookup. by eexists.
Qed.

Lemma ensure_dir_keeps fs p k :
  is_Some (fs !! k) -> is_Some (ensure_dir fs p !! k).
Proof.
  intros Hk. unfold ensure_dir. destruct (fs !! Path.to_string p) eqn:E; [done |].
  destruct (decide (Path.to_string p = k)) as [-> | Hne].
  - rewrite lookup_insert_eq. by eexists.
  - by rewrite lookup_insert_ne.
Qed.


Lemma ensure_dirs_keep l : forall fs k,
  is_Some (fs !! k) -> is_Some (fold_left ensure_dir l fs !! k).
Proof.
  induction l as [| p l IH]; intros fs k Hk; simpl; [done |].
  apply IH. by apply ensure_dir_keeps.
Qed.




(** ** The registry *)

Lemma os_path_join_nonempty dir :
  String.eqb (os_path_join dir VoiceConfig.CONFIG_FILE) "" = false.
Proof.
  unfold os_path_join. destruct dir as [| a dir]; [done |].
  change (String.eqb (String a dir) "") with false. cbv iota.
  match goal with |- context [if ?b then _ else _] => destruct b end; reflexivity.
Qed.

Lemma load_config_after_save c o :
  String.eqb (VoiceConfig.config_path c) "" = false ->
  VoiceConfig._load_config (VoiceConfig.config_path c) (VoiceConfig._save_config c o)
  = inr (VoiceConfig.voices c).
Proof.
  intros Hne. unfold VoiceConfig._load_config, VoiceConfig._save_config, os_path_exists.
  rewrite Hne, write_file_exists, write_file_lookup. done.
Qed.

Lemma init_config_path dir o c :
  VoiceConfig.init dir o = inr c ->
  VoiceConfig.config_path c = os_path_join dir VoiceConfig.CONFIG_FILE.
Proof.
  unfold VoiceConfig.init.
  destruct (VoiceConfig._load_config _ o); intros H; inversion H; done.
Qed.

(** A fresh instance made after a save holds what was saved. *)
Lemma init_after_save dir o c :
  VoiceConfig.config_path c = os_path_join dir VoiceConfig.CONFIG_FILE ->
  VoiceConfig.init dir (VoiceConfig._save_config c o) = inr c.
Proof.
  intros Hp. unfold VoiceConfig.init. rewrite <- Hp.
  rewrite load_config_after_save.
  - by destruct c.
  - rewrite Hp. apply os_path_join_nonempty.
Qed.


(** C8. Removal: [remove_voice(voice_id)] on an id that is in the registry
    returns true and [get_voice(voice_id)] is absent afterwards;
    [remove_voice(voice_id)] on an id that is not in the registry returns
    false and leaves the instance and the operating-system state, hence the
    document, as they were: nothing is written. *)
Theorem remove_voice_spec voice_id c o :
  (is_Some (VoiceConfig.voices c !! voice_id) ->
   exists c' o',
     VoiceConfig.remove_voice voice_id c o = (true, c', o') /\
     VoiceConfig.get_voice voice_id c' = None) /\
  (VoiceConfig.voices c !! voice_id = None ->
   VoiceConfig.remove_voice voice_id c o = (false, c, o)).
Proof.
  unfold VoiceConfig.remove_voice. split.
  - intros Hin. rewrite bool_decide_eq_true_2 by done.
    eexists _, _. split; [reflexivity |].
    unfold VoiceConfig.get_voice; simpl. apply lookup_delete_eq.
  - intros Hout. rewrite bool_decide_eq_false_2; [done |].
    rewrite Hout. by intros [? ?].
Qed.

(** ** The engine cache *)


Section Cache.

Variable env : Env.

Lemma load_model_stored key e w :
  load_model key (with_model key e w) = (Ok e, with_model key e w).
Proof. unfold load_model, with_model; simpl. by rewrite lookup_insert_eq. Qed.

Lemma default_tts_cached w e :
  tts_models w !! "default" = Some e -> default_tts env w = (Ok e, w).
Proof.
  intros H. unfold default_tts, bind, gets, ret, load_model.
  rewrite bool_decide_eq_true_2 by (rewrite H; by eexists). by rewrite H.
Qed.

Lemma default_tts_no_model w :
  tts_models w !! "default" = None ->
  path_exists (os w) (default_model_dir env) = false ->
  default_tts env w
  = (Raise (Exn FileNotFoundError
              ("Default model directory not found: "
               +:+ Path.to_string (default_model_dir env)
               +:+ ". Please run download_model.py first.")), w).
Proof.
  intros H Hdir. unfold default_tts, bind, gets, ret.
  rewrite bool_decide_eq_false_2 by (rewrite H; by intros [? ?]).
  by rewrite Hdir.
Qed.

Lemma default_tts_init_fails w ex :
  tts_models w !! "default" = None ->
  path_exists (os w) (default_model_dir env) = true ->
  SparkTTS_init env (constructions w)
    (Path.to_string (default_model_dir env)) (device env) = Some ex ->
  default_tts env w
  = (Raise ex, constructing (Path.to_string (default_model_dir env)) (device env) w).
Proof.
  intros H Hdir Hinit. unfold default_tts, bind, gets, ret.
  rewrite bool_decide_eq_false_2 by (rewrite H; by intros [? ?]).
  rewrite Hdir; simpl. unfold SparkTTS. by rewrite Hinit.
Qed.

Lemma default_tts_built w :
  tts_models w !! "default" = None ->
  path_exists (os w) (default_model_dir env) = true ->
  SparkTTS_init env (constructions w)
    (Path.to_string (default_model_dir env)) (device env) = None ->
  let e := mkEngine (constructions w)
             (Path.to_string (default_model_dir env)) (device env) in
  default_tts env w
  = (Ok e, with_model "default" e
             (constructing (Path.to_string (default_model_dir env)) (device env) w)).
Proof.
  intros H Hdir Hinit e. unfold default_tts, bind, gets, ret.
  rewrite bool_decide_eq_false_2 by (rewrite H; by intros [? ?]).
  rewrite Hdir; simpl. unfold SparkTTS. rewrite Hinit.
  unfold store_model. apply load_model_stored.
Qed.

Lemma default_tts_step w : cache_step w "default" (default_tts env w).
Proof.
  destruct (tts_models w !! "default") as [e |] eqn:H.
  - rewrite (default_tts_cached _ _ H). by constructor.
  - destruct (path_exists (os w) (default_model_dir env)) eqn:Hdir.
    + destruct (SparkTTS_init env (constructions w)
                  (Path.to_string (default_model_dir env)) (device env)) as [ex |] eqn:Hi.
      * rewrite (default_tts_init_fails _ _ H Hdir Hi). by constructor.
      * rewrite (default_tts_built _ H Hdir Hi). by constructor.
    + rewrite (default_tts_no_model _ H Hdir). by constructor.
Qed.

Lemma voice_tts_cached vid w e :
  tts_models w !! vid = Some e -> voice_tts env vid w = (Ok e, w).
Proof.
  intros H. unfold voice_tts, bind, gets, ret, load_model.
  rewrite bool_decide_eq_true_2 by (rewrite H; by eexists). by rewrite H.
Qed.

Lemma voice_tts_no_model vid voice w :
  tts_models w !! vid = None ->
  VoiceConfig.get_voice vid (voice_config w) = Some voice ->
  os_path_exists (os w) (model_dir voice) = false ->
  voice_tts env vid w
  = (Raise (Exn FileNotFoundError
              ("Model directory for voice '" +:+ vid
               +:+ "' not found: " +:+ model_dir voice)), w).
Proof.
  intros H Hv Hdir. unfold voice_tts, bind, gets, ret.
  rewrite bool_decide_eq_false_2 by (rewrite H; by intros [? ?]).
  rewrite Hv. by rewrite Hdir.
Qed.

Lemma voice_tts_init_fails vid voice w ex :
  tts_models w !! vid = None ->
  VoiceConfig.get_voice vid (voice_config w) = Some voice ->
  os_path_exists (os w) (model_dir voice) = true ->
  SparkTTS_init env (constructions w) (model_dir voice) (device env) = Some ex ->
  voice_tts env vid w
  = (Raise (Exn RuntimeError
              ("Failed to load model for voice '" +:+ vid +:+ "': " +:+ exn_msg ex)),
     constructing (model_dir voice) (device env) w).
Proof.
  intros H Hv Hdir Hinit. unfold voice_tts, bind, gets, ret.
  rewrite bool_decide_eq_false_2 by (rewrite H; by intros [? ?]).
  rewrite Hv, Hdir; simpl. unfold try_except, SparkTTS. by rewrite Hinit.
Qed.

Lemma voice_tts_built vid voice w :
  tts_models w !! vid = None ->
  VoiceConfig.get_voice vid (voice_config w) = Some voice ->
  os_path_exists (os w) (model_dir voice) = true ->
  SparkTTS_init env (constructions w) (model_dir voice) (device env) = None ->
  let e := mkEngine (constructions w) (model_dir voice) (device env) in
  voice_tts env vid w
  = (Ok e, with_model vid e (constructing (model_dir voice) (device env) w)).
Proof.
  intros H Hv Hdir Hinit e. unfold voice_tts, bind, gets, ret.
  rewrite bool_decide_eq_false_2 by (rewrite H; by intros [? ?]).
  rewrite Hv, Hdir; simpl. unfold try_except, SparkTTS. rewrite Hinit.
  unfold store_model. apply load_model_stored.
Qed.

Lemma voice_tts_step vid w : cache_step w vid (voice_tts env vid w).
Proof.
  destruct (tts_models w !! vid) as [e |] eqn:H.
  - rewrite (voice_tts_cached _ _ _ H). by constructor.
  - destruct (VoiceConfig.get_voice vid (voice_config w)) as [voice |] eqn:Hv.
    + destruct (os_path_exists (os w) (model_dir voice)) eqn:Hdir.
      * destruct (SparkTTS_init env (constructions w) (model_dir voice) (device env))
          as [ex |] eqn:Hi.
        -- rewrite (voice_tts_init_fails _ _ _ _ H Hv Hdir Hi). by constructor.
        -- rewrite (voice_tts_built _ _ _ H Hv Hdir Hi). by constructor.
      * rewrite (voice_tts_no_model _ _ _ H Hv Hdir). by constructor.
    + unfold voice_tts, bind, gets, ret.
      rewrite bool_decide_eq_false_2 by (rewrite H; by intros [? ?]).
      rewrite Hv. by constructor.
Qed.

(** [get_tts] logs the call and takes one of its two branches. *)
Lemma get_tts_unregistered voice_id w :
  unregistered voice_id w ->
  get_tts env voice_id w = default_tts env (with_os (log (EGetTts voice_id)) w).
Proof.
  intros Hu. unfold get_tts, bind, emit, on_os, gets.
  destruct voice_id as [v |]; [| done].
  simpl in Hu. simpl. by rewrite Hu.
Qed.

Lemma get_tts_registered v voice w :
  VoiceConfig.get_voice v (voice_config w) = Some voice ->
  get_tts env (Some v) w = voice_tts env v (with_os (log (EGetTts (Some v))) w).
Proof.
  intros Hv. unfold get_tts, bind, emit, on_os, gets. simpl. by rewrite Hv.
Qed.

Lemma get_tts_step voice_id w :
  exists key,
    cache_step (with_os (log (EGetTts voice_id)) w) key (get_tts env voice_id w).
Proof.
  destruct voice_id as [v |].
  - destruct (VoiceConfig.get_voice v (voice_config w)) as [voice |] eqn:Hv.
    + exists v. rewrite (get_tts_registered _ _ _ Hv). apply voice_tts_step.
    + exists "default". rewrite get_tts_unregistered by done. apply default_tts_step.
  - exists "default". rewrite get_tts_unregistered by done. apply default_tts_step.
Qed.

End Cache.

(** ** What the bridge never undoes *)


Lemma extends_refl w : extends w w.
Proof. split; try done. by exists []; rewrite app_nil_r. Qed.

Lemma extends_trans w1 w2 w3 : extends w1 w2 -> extends w2 w3 -> extends w1 w3.
Proof.
  intros [c1 f1 [l1 e1] n1 i1] [c2 f2 [l2 e2] n2 i2]. split; auto.
  - exists (l1 ++ l2)%list. by rewrite e2, e1, app_assoc.
  - lia.
Qed.


Lemma with_os_extends f w : os_extends (os w) (f (os w)) -> extends w (with_os f w).
Proof. intros [Hf Hl]. by split. Qed.

Lemma insert_keeps (fs : gmap string node) k n p :
  is_Some (fs !! p) -> is_Some (<[k := n]> fs !! p).
Proof.
  intros Hp. destruct (decide (k = p)) as [-> | Hne].
  - rewrite lookup_insert_eq. by eexists.
  - by rewrite lookup_insert_ne.
Qed.

Lemma log_extends ev o : os_extends o (log ev o).
Proof. split; [done | by eexists]. Qed.

Lemma mkdir_parents_extends p o : os_extends o (mkdir_parents p o).
Proof. split; [intros q; apply ensure_dirs_keep | by eexists]. Qed.

Lemma write_file_extends p c o : os_extends o (write_file p c o).
Proof. split; [intros q; apply insert_keeps | by eexists]. Qed.

Lemma store_audio_extends path wav rate o : os_extends o (store_audio path wav rate o).
Proof. split; [intros q; apply insert_keeps | by exists []; rewrite app_nil_r]. Qed.

Lemma constructing_extends dir dev w : extends w (constructing dir dev w).
Proof.
  split; simpl; try done.
  - by eexists.
  - lia.
  - intros [Hb Hi]. split; [| done].
    intros k e He. specialize (Hb k e He). simpl. lia.
Qed.

(** Storing a new object under a key that has no entry. *)
Lemma store_built_extends key dir dev w :
  tts_models w !! key = None ->
  extends w (with_model key (mkEngine (constructions w) dir dev) (constructing dir dev w)).
Proof.
  intros Hkey. split; simpl; try done.
  - intros k e He. rewrite lookup_insert_ne; [done | congruence].
  - by eexists.
  - lia.
  - intros [Hb Hi]. split; simpl.
    + intros k e. rewrite lookup_insert. case_decide.
      * intros [= <-]. simpl. lia.
      * intros He. specialize (Hb k e He). lia.
    + intros k1 k2 e1 e2. rewrite !lookup_insert. repeat case_decide.
      * congruence.
      * intros [= <-] He2 Hid. specialize (Hb k2 e2 He2). simpl in Hid. lia.
      * intros He1 [= <-] Hid. specialize (Hb k1 e1 He1). simpl in Hid. lia.
      * apply Hi.
Qed.

Lemma cache_step_extends w key rw : cache_step w key rw -> extends w rw.2.
Proof.
  intros [e He | ex Hn | dir dev ex Hn | dir dev Hn]; simpl.
  - apply extends_refl.
  - apply extends_refl.
  - apply constructing_extends.
  - by apply store_built_extends.
Qed.


Lemma respects_ret {A} (a : A) : respects (ret a).
Proof. intros w. apply extends_refl. Qed.

Lemma respects_raise {A} e : respects (@raise A e).
Proof. intros w. apply extends_refl. Qed.

Lemma respects_gets {A} (f : World -> A) : respects (gets f).
Proof. intros w. apply extends_refl. Qed.

Lemma respects_raise_if b e : respects (raise_if b e).
Proof. destruct b; [apply respects_raise | apply respects_ret]. Qed.

Lemma respects_bind {A B} (m : M A) (k : A -> M B) :
  respects m -> (forall a, respects (k a)) -> respects (bind m k).
Proof.
  intros Hm Hk w. unfold bind. specialize (Hm w).
  destruct (m w) as [[a | e] w1]; simpl in *; [| done].
  eapply extends_trans; [exact Hm | apply Hk].
Qed.

Lemma respects_try_except {A} (m : M A) (h : exn -> M A) :
  respects m -> (forall e, respects (h e)) -> respects (try_except m h).
Proof.
  intros Hm Hh w. unfold try_except. specialize (Hm w).
  destruct (m w) as [[a | e] w1]; simpl in *; [done |].
  eapply extends_trans; [exact Hm | apply Hh].
Qed.

Lemma respects_on_os f : (forall o, os_extends o (f o)) -> respects (on_os f).
Proof. intros Hf w. apply with_os_extends, Hf. Qed.

Lemma respects_emit ev : respects (emit ev).
Proof. apply respects_on_os. intros o. apply log_extends. Qed.

Create HintDb frame.

#[local] Hint Resolve respects_ret respects_raise respects_gets respects_raise_if
  respects_emit log_extends mkdir_parents_extends write_file_extends
  store_audio_extends : frame.

(** Splits a computation into its statements. *)
Ltac frame :=
  repeat first
    [ progress auto with frame
    | apply respects_bind; [| intros ?]
    | apply respects_try_except; [| intros ?]
    | apply respects_on_os; intros ?
    | match goal with
      | |- respects (if ?b then _ else _) => destruct b
      | |- respects (match ?x with _ => _ end) => destruct x
      end ].

Section Frame.

Variable env : Env.

Lemma respects_get_tts voice_id : respects (get_tts env voice_id).
Proof.
  intros w. destruct (get_tts_step env voice_id w) as [key Hs].
  eapply extends_trans; [| exact (cache_step_extends _ _ _ Hs)].
  apply with_os_extends, log_extends.
Qed.

Lemma respects_list_voices : respects (list_voices env).
Proof. unfold list_voices. frame. Qed.

Lemma respects_call_inference e a : respects (call_inference env e a).
Proof. unfold call_inference. frame. Qed.

Lemma respects_soundfile_write path wav rate :
  respects (soundfile_write env path wav rate).
Proof. unfold soundfile_write. frame. Qed.

Lemma respects_handler text voice_id custom_voice_path output_path e :
  respects (handler env text voice_id custom_voice_path output_path e).
Proof. unfold handler, failure. frame. Qed.

Lemma respects_synthesize text voice_id custom_voice_path output_path :
  respects (synthesize env text voice_id custom_voice_path output_path).
Proof.
  unfold synthesize.
  pose proof respects_get_tts. pose proof respects_call_inference.
  pose proof respects_soundfile_write. frame.
Qed.

Lemma respects_process_tts_request text voice_id custom_voice_path output_path :
  respects (process_tts_request env text voice_id custom_voice_path output_path).
Proof.
  unfold process_tts_request.
  pose proof respects_synthesize. pose proof respects_handler. frame.
Qed.

Lemma respects_handle_list_voices : respects (handle_list_voices env).
Proof. unfold handle_list_voices. pose proof respects_list_voices. frame. Qed.

Lemma respects_main args : respects (main env args).
Proof.
  unfold main.
  pose proof respects_handle_list_voices. pose proof respects_process_tts_request.
  frame.
Qed.

Lemma add_voice_extends voice_id model_dir display_name w :
  extends w (add_voice voice_id model_dir display_name w).
Proof.
  unfold add_voice, VoiceConfig.add_voice, VoiceConfig._save_config; simpl.
  split; simpl; try done.
  - intros p. apply insert_keeps.
  - by eexists.
Qed.

Lemma remove_voice_extends voice_id w : extends w (remove_voice voice_id w).
Proof.
  unfold remove_voice, VoiceConfig.remove_voice, VoiceConfig._save_config.
  case_bool_decide; simpl.
  - split; simpl; try done.
    + intros p. apply insert_keeps.
    + by eexists.
  - split; simpl; try done. by exists []; rewrite app_nil_r.
Qed.

Lemma run_op_extends o w : extends w (run_op env o w).
Proof.
  destruct o; simpl.
  - apply respects_get_tts.
  - apply respects_list_voices.
  - apply add_voice_extends.
  - apply remove_voice_extends.
  - apply respects_process_tts_request.
  - apply respects_main.
Qed.

Lemma run_ops_extends ops : forall w, extends w (run_ops env ops w).
Proof.
  induction ops as [| o ops IH]; intros w; simpl.
  - apply extends_refl.
  - eapply extends_trans; [apply run_op_extends | apply IH].
Qed.

Lemma init_cache_wf dir o w : VoiceManager_init dir o = inr w -> cache_wf w.
Proof.
  unfold VoiceManager_init. destruct (VoiceConfig.init dir o); [done |].
  intros [= <-]. split; simpl; intros *; by rewrite lookup_empty.
Qed.

(** In every state of a process the cache is well formed. *)
Lemma reachable_cache_wf w : reachable env w -> cache_wf w.
Proof.
  induction 1 as [dir o w Hinit | o w Hr IH].
  - by eapply init_cache_wf.
  - by apply (ext_wf _ _ (run_op_extends o w)).
Qed.

End Frame.

(** ** The claims on the engine cache *)

Lemma cache_step_files w key rw : cache_step w key rw -> files (os rw.2) = files (os w).
Proof. by intros [e He | ex Hn | dir dev ex Hn | dir dev Hn]. Qed.

Lemma cache_step_registry w key rw :
  cache_step w key rw -> voice_config rw.2 = voice_config w.
Proof. by intros [e He | ex Hn | dir dev ex Hn | dir dev Hn]. Qed.

(** What a branch returns is what the cache then holds under its key. *)
Lemma cache_step_returns w key e w' :
  cache_step w key (Ok e, w') -> tts_models w' !! key = Some e.
Proof.
  inversion 1; subst; [done |].
  unfold with_model; simpl. apply lookup_insert_eq.
Qed.

(** What a branch returns is no object held under another key. *)
Lemma cache_step_other w key e w' k e_k :
  cache_wf w -> cache_step w key (Ok e, w') ->
  k <> key -> tts_models w !! k = Some e_k -> e <> e_k.
Proof.
  intros [Hb Hi] Hs Hne Hk. inversion Hs; subst.
  - intros ->. apply Hne. by eapply Hi.
  - intros <-. specialize (Hb k _ Hk). simpl in Hb. lia.
Qed.

Lemma remove_voice_cache voice_id w :
  tts_models (remove_voice voice_id w) = tts_models w.
Proof.
  unfold remove_voice, VoiceConfig.remove_voice. by case_bool_decide.
Qed.

Lemma remove_voice_unregistered voice_id w :
  unregistered (Some voice_id) (remove_voice voice_id w).
Proof.
  unfold unregistered, remove_voice, VoiceConfig.remove_voice, VoiceConfig.get_voice.
  case_bool_decide as Hin; simpl.
  - apply lookup_delete_eq.
  - destruct (VoiceConfig.voices (voice_config w) !! voice_id) eqn:E; [| done].
    exfalso. apply Hin. by eexists.
Qed.

Lemma reachable_run_ops env ops : forall w,
  reachable env w -> reachable env (run_ops env ops w).
Proof.
  induction ops as [| o ops IH]; intros w Hr; simpl; [done |].
  apply IH. by constructor.
Qed.

Lemma run_ops_app env ops1 ops2 w :
  run_ops env (ops1 ++ ops2) w = run_ops env ops2 (run_ops env ops1 w).
Proof. unfold run_ops. apply fold_left_app. Qed.

Section CacheClaims.

Variable env : Env.

(** C5. Over every sequence of operations of one process (engine
    resolution, listing, requests, the command-line entry and changes of
    the registry), an engine stored under a cache key stays under that key:
    whatever the later operations, the key is mapped to the same engine
    object, never removed and never replaced. *)
Theorem cache_entries_are_permanent ops1 ops2 w key e :
  tts_models (run_ops env ops1 w) !! key = Some e ->
  tts_models (run_ops env (ops1 ++ ops2) w) !! key = Some e.
Proof.
  intros He. rewrite run_ops_app.
  by apply (ext_cache _ _ (run_ops_extends env ops2 _)).
Qed.

(** C3. For a registered [voice_id] with no cached engine whose model
    directory exists and whose engine construction raises, [get_tts] raises
    a [RuntimeError] that names the voice and carries the cause, and the
    cache is unchanged, so [voice_id] still has no entry; the next
    [get_tts(voice_id)] calls the constructor again, and returns and caches
    the new engine if that call succeeds. *)
Theorem engine_load_error_leaves_cache voice_id voice w ex :
  VoiceConfig.get_voice voice_id (voice_config w) = Some voice ->
  tts_models w !! voice_id = None ->
  os_path_exists (os w) (model_dir voice) = true ->
  SparkTTS_init env (constructions w) (model_dir voice) (device env) = Some ex ->
  let w' := constructing (model_dir voice) (device env)
              (with_os (log (EGetTts (Some voice_id))) w) in
  get_tts env (Some voice_id) w
  = (Raise (Exn RuntimeError
              ("Failed to load model for voice '" +:+ voice_id
               +:+ "': " +:+ exn_msg ex)), w') /\
  tts_models w' = tts_models w /\
  tts_models w' !! voice_id = None /\
  effects (os (get_tts env (Some voice_id) w').2)
  = (effects (os w')
     ++ [EGetTts (Some voice_id); ESparkTTS (model_dir voice) (device env)])%list /\
  (SparkTTS_init env (constructions w') (model_dir voice) (device env) = None ->
   exists w'',
     get_tts env (Some voice_id) w'
     = (Ok (mkEngine (constructions w') (model_dir voice) (device env)), w'') /\
     tts_models w'' !! voice_id
     = Some (mkEngine (constructions w') (model_dir voice) (device env))).
Proof.
  intros Hv Hc Hdir Hinit w'.
  split; [| split; [| split; [| split]]].
  - rewrite (get_tts_registered _ _ _ _ Hv).
    by apply voice_tts_init_fails.
  - done.
  - done.
  - rewrite (get_tts_registered env voice_id voice w') by done.
    destruct (SparkTTS_init env (constructions w') (model_dir voice) (device env))
      as [ex' |] eqn:Hi.
    + rewrite (voice_tts_init_fails env voice_id voice _ ex') by done.
      simpl. by rewrite <- !app_assoc.
    + rewrite (voice_tts_built env voice_id voice) by done.
      simpl. by rewrite <- !app_assoc.
  - intros Hi. rewrite (get_tts_registered env voice_id voice w') by done.
    rewrite (voice_tts_built env voice_id voice) by done.
    eexists. split; [reflexivity |]. simpl. apply lookup_insert_eq.
Qed.

(** C2, as the code has it. For a call of [get_tts] whose [voice_id] is
    [None] or has no entry in the registry: (a) the engine returned is the
    one the cache then holds under the key ["default"]; (b) if the cache
    already holds an engine under that key, that engine is returned and
    nothing is constructed; (c) if it holds none, the built-in model
    directory exists and the constructor succeeds, a new engine is
    constructed from the built-in model location and stored under
    ["default"]; (d) after any further operations, every such call returns
    the same object, constructs nothing and leaves the cache as it is. *)
Theorem default_engine_spec voice_id w :
  unregistered voice_id w ->
  let w1 := with_os (log (EGetTts voice_id)) w in
  let dir := Path.to_string (default_model_dir env) in
  (forall e w', get_tts env voice_id w = (Ok e, w') ->
                tts_models w' !! "default" = Some e) /\
  (forall e, tts_models w !! "default" = Some e ->
             get_tts env voice_id w = (Ok e, w1)) /\
  (tts_models w !! "default" = None ->
   path_exists (os w) (default_model_dir env) = true ->
   SparkTTS_init env (constructions w) dir (device env) = None ->
   get_tts env voice_id w
   = (Ok (mkEngine (constructions w) dir (device env)),
      with_model "default" (mkEngine (constructions w) dir (device env))
        (constructing dir (device env) w1))) /\
  (forall e w', get_tts env voice_id w = (Ok e, w') ->
     forall ops voice_id',
       unregistered voice_id' (run_ops env ops w') ->
       get_tts env voice_id' (run_ops env ops w')
       = (Ok e, with_os (log (EGetTts voice_id')) (run_ops env ops w'))).
Proof.
  intros Hu w1 dir.
  assert (Ha : forall e w', get_tts env voice_id w = (Ok e, w') ->
                            tts_models w' !! "default" = Some e).
  { intros e w' Hg. rewrite get_tts_unregistered in Hg by done.
    eapply cache_step_returns. rewrite <- Hg. apply default_tts_step. }
  split; [exact Ha | split; [| split]].
  - intros e He. rewrite get_tts_unregistered by done.
    by apply default_tts_cached.
  - intros Hc Hdir Hi. rewrite get_tts_unregistered by done.
    exact (default_tts_built env w1 Hc Hdir Hi).
  - intros e w' Hg ops voice_id' Hu'.
    rewrite get_tts_unregistered by done.
    apply default_tts_cached. simpl.
    apply (ext_cache _ _ (run_ops_extends env ops w')). by eapply Ha.
Qed.

(** C9, as the code has it. Let [voice_id], other than the key
    ["default"], have an engine [e_v] in the cache of a process, and let it
    be removed from the registry. Then [get_tts(voice_id)] takes the
    default branch: it returns the engine cached under ["default"] if
    there is one, and whenever it returns, what it returns is the engine
    under ["default"] and is not [e_v], which stays in the cache under
    [voice_id]. As long as [voice_id] has no entry in the registry, no
    call of [get_tts], whatever its argument, returns [e_v]. *)
Theorem removed_voice_resolves_to_default w voice_id e_v :
  reachable env w ->
  voice_id <> "default" ->
  tts_models w !! voice_id = Some e_v ->
  let w_r := remove_voice voice_id w in
  get_tts env (Some voice_id) w_r
  = default_tts env (with_os (log (EGetTts (Some voice_id))) w_r) /\
  (forall e_d, tts_models w !! "default" = Some e_d ->
     get_tts env (Some voice_id) w_r
     = (Ok e_d, with_os (log (EGetTts (Some voice_id))) w_r)) /\
  (forall e w', get_tts env (Some voice_id) w_r = (Ok e, w') ->
     tts_models w' !! "default" = Some e /\ e <> e_v /\
     tts_models w' !! voice_id = Some e_v) /\
  (forall ops arg e w',
     unregistered (Some voice_id) (run_ops env ops w_r) ->
     get_tts env arg (run_ops env ops w_r) = (Ok e, w') ->
     e <> e_v).
Proof.
  intros Hr Hne Hc w_r.
  assert (Hu : unregistered (Some voice_id) w_r)
    by apply remove_voice_unregistered.
  assert (Hc_r : tts_models w_r !! voice_id = Some e_v)
    by (unfold w_r; by rewrite remove_voice_cache).
  assert (Hr_r : reachable env w_r)
    by (apply (reach_op env (OpRemoveVoice voice_id)); exact Hr).
  assert (Hgen : forall w2 arg e w',
             reachable env w2 -> tts_models w2 !! voice_id = Some e_v ->
             unregistered (Some voice_id) w2 ->
             get_tts env arg w2 = (Ok e, w') -> e <> e_v).
  { intros w2 arg e w' Hr2 Hc2 Hu2 Hg.
    pose proof (reachable_cache_wf env w2 Hr2) as Hwf.
    destruct arg as [v |];
      [destruct (VoiceConfig.get_voice v (voice_config w2)) as [voice |] eqn:Hv |].
    - rewrite (get_tts_registered env v voice w2 Hv) in Hg.
      refine (cache_step_other (with_os (log (EGetTts (Some v))) w2)
                v e w' voice_id e_v Hwf _ _ Hc2).
      + rewrite <- Hg. apply voice_tts_step.
      + intros <-. simpl in Hu2. congruence.
    - rewrite get_tts_unregistered in Hg by done.
      refine (cache_step_other (with_os (log (EGetTts (Some v))) w2)
                "default" e w' voice_id e_v Hwf _ Hne Hc2).
      rewrite <- Hg. apply default_tts_step.
    - rewrite get_tts_unregistered in Hg by done.
      refine (cache_step_other (with_os (log (EGetTts None)) w2)
                "default" e w' voice_id e_v Hwf _ Hne Hc2).
      rewrite <- Hg. apply default_tts_step. }
  split; [| split; [| split]].
  - by apply get_tts_unregistered.
  - intros e_d Hd. rewrite get_tts_unregistered by done.
    apply default_tts_cached. simpl. unfold w_r. by rewrite remove_voice_cache.
  - intros e w' Hg. split; [| split].
    + rewrite get_tts_unregistered in Hg by done.
      eapply cache_step_returns. rewrite <- Hg. apply default_tts_step.
    + by eapply Hgen.
    + pose proof (respects_get_tts env (Some voice_id) w_r) as Hx.
      rewrite Hg in Hx. by apply (ext_cache _ _ Hx).
  - intros ops arg e w' Hu2 Hg.
    eapply Hgen; [| | exact Hu2 | exact Hg].
    + by apply reachable_run_ops.
    + by apply (ext_cache _ _ (run_ops_extends env ops w_r)).
Qed.

End CacheClaims.

(** ** The claims on the request processor *)

Lemma get_tts_files env voice_id w :
  files (os (get_tts env voice_id w).2) = files (os w).
Proof.
  destruct (get_tts_step env voice_id w) as [key Hs].
  by rewrite (cache_step_files _ _ _ Hs).
Qed.

(** The fallback file is a 44-byte RIFF/WAVE header announcing 36 bytes
    after the size field and a [data] chunk of length zero. *)
Lemma EMPTY_WAV_layout :
  length EMPTY_WAV = 44 /\
  firstn 4 EMPTY_WAV = [82; 73; 70; 70]%Z /\
  nth 4 EMPTY_WAV 0%Z = (44 - 8)%Z /\
  skipn 36 EMPTY_WAV = [100; 97; 116; 97; 0; 0; 0; 0]%Z.
Proof. repeat split. Qed.

Lemma bind_ok {A B} (m : M A) (k : A -> M B) w a w' :
  m w = (Ok a, w') -> bind m k w = k a w'.
Proof. intros H. unfold bind. by rewrite H. Qed.

Lemma bind_raise {A B} (m : M A) (k : A -> M B) w e w' :
  m w = (Raise e, w') -> bind m k w = (Raise e, w').
Proof. intros H. unfold bind. by rewrite H. Qed.

Section RequestClaims.

Variable env : Env.

(** C1, as the code has it. The check of [text] is made by the entry point
    [__main__], not by [process_tts_request]: for a command line of action
    [tts] whose text is missing or empty, the entry point raises
    [ValueError] before [process_tts_request] is called and reports it as
    a structured failure, and the state of the process is untouched: the
    cache is not consulted, no engine is constructed, nothing is written
    or logged. *)
Theorem empty_text_rejected_by_main args w :
  action args = ActTts ->
  truthy_str (text args) = false ->
  main env args w
  = (Ok [("success", JBool false);
         ("message",
          JStr "Unexpected error: --text argument is required for TTS action");
         ("trace",
          JStr (format_exc env
                  (Exn ValueError "--text argument is required for TTS action")))],
     w).
Proof.
  intros Ha Ht. unfold main, try_except, bind. rewrite Ha, Ht. reflexivity.
Qed.


(** C6, as the code has it. Let the inference integration be available,
    let engine resolution succeed, and let [custom_voice_path] be a path
    that does not exist when it is checked, that is after the directory of
    the output has been created. Then
    [process_tts_request] returns a failure whose message names the
    missing path, whose [file] is null and whose [log_file] is the fixed
    log, into which the request and the exception have been written; after
    engine resolution this is the only effect: no inference, no audio and
    no placeholder is written. *)
Theorem missing_custom_voice_failure text voice_id p output_path w e w2 :
  SPARK_TTS_AVAILABLE env = true ->
  let out := Path.of_string output_path in
  let w1 := with_os (mkdir_parents (Path.parent out)) w in
  get_tts env voice_id w1 = (Ok e, w2) ->
  path_exists (os w1) (Path.of_string p) = false ->
  let ex := Exn FileNotFoundError ("Voice file not found: " +:+ p) in
  let record := error_log env text voice_id (Some p) out ex in
  let w3 := with_os (write_file (Path.of_string ERROR_LOG_PATH) record) w2 in
  process_tts_request env text voice_id (Some p) output_path w
  = (Ok [("success", JBool false);
         ("message", JStr ("File not found: " +:+ "Voice file not found: " +:+ p));
         ("file", JNull);
         ("trace", JStr (truncate_trace (format_exc env ex)));
         ("log_file", JStr "tts_error.log")],
     w3) /\
  files (os w3) = <["tts_error.log" := File record]> (files (os w1)) /\
  effects (os w3) = (effects (os w2) ++ [EWrite "tts_error.log" record])%list.
Proof.
  intros Hav out w1 Hg Hmiss ex record w3.
  assert (Hp : String.eqb p "" = false) by (by destruct p).
  assert (Hmiss2 : path_exists (os w2) (Path.of_string p) = false).
  { unfold path_exists in *.
    replace (files (os w2)) with (files (os w1)); [done |].
    pose proof (get_tts_files env voice_id w1) as Hf. by rewrite Hg in Hf. }
  split; [| split].
  - assert (Hs : synthesize env text voice_id (Some p) out w1 = (Raise ex, w2)).
    { unfold synthesize.
      rewrite (bind_ok _ _ w1 tt w1) by (by rewrite Hav).
      rewrite (bind_ok _ _ w1 e w2 Hg).
      apply bind_raise. unfold truthy_str. rewrite Hp.
      change (negb false) with true. cbv iota.
      rewrite (bind_ok _ _ w2 false w2) by (unfold gets; by rewrite <- Hmiss2).
      reflexivity. }
    unfold process_tts_request.
    rewrite (bind_ok _ _ w tt w1) by reflexivity.
    unfold try_except. fold out. rewrite Hs. reflexivity.
  - simpl. f_equal.
    pose proof (get_tts_files env voice_id w1) as Hf. by rewrite Hg in Hf.
  - reflexivity.
Qed.


End RequestClaims.

(** ** The claims on the sample installation *)

Lemma demo_boot : VoiceManager_init "/app/python" demo_os = inr demo_world.
Proof. vm_compute. reflexivity. Qed.

Lemma demo_paths :
  Path.to_string (Path.parent (Path.of_string "out/dir/a.wav")) = "out/dir" /\
  Path.to_string (Path.parent (Path.of_string "output.wav")) = "." /\
  Path.to_string (Path.of_string "out//dir/./a.wav") = "out/dir/a.wav" /\
  Path.to_string (default_model_dir demo_env) = "/app/pretrained_models/Spark-TTS-0.5B".
Proof. repeat split. Qed.

(** C1, counterexample. [process_tts_request] does not look at [text]: with
    the empty string, and with no text at all, it calls [get_tts], which
    constructs the default engine, runs the inference and reports success. *)
Lemma empty_text_reaches_the_engine :
  truthy_str (Some "") = false /\
  truthy_str None = false /\
  (process_tts_request demo_env (Some "") None None "out/a.wav" demo_world).1
  = Ok [("success", JBool true);
        ("file", JStr "out/a.wav");
        ("message", JStr "Audio generated successfully using CPU");
        ("voice", JObj [])] /\
  effects (os (process_tts_request demo_env (Some "") None None "out/a.wav" demo_world).2)
  = [EMkdir "out";
     EGetTts None;
     ESparkTTS "/app/pretrained_models/Spark-TTS-0.5B" Cpu;
     EInference (mkEngine 0 "/app/pretrained_models/Spark-TTS-0.5B" Cpu)
       (Parametric (Some "") "male" "moderate" "moderate");
     ESfWrite "out/a.wav"] /\
  (process_tts_request demo_env None None None "out/a.wav" demo_world).1
  = Ok [("success", JBool true);
        ("file", JStr "out/a.wav");
        ("message", JStr "Audio generated successfully using CPU");
        ("voice", JObj [])].
Proof. vm_compute. repeat split. Qed.

(** C1, witness: the entry point rejects an empty text and leaves the state
    of the process as it was. *)
Lemma empty_text_rejected_by_main_witness :
  main demo_env (mkArgs ActTts (Some "") None None "output.wav") demo_world
  = (Ok [("success", JBool false);
         ("message",
          JStr "Unexpected error: --text argument is required for TTS action");
         ("trace",
          JStr (format_exc demo_env
                  (Exn ValueError "--text argument is required for TTS action")))],
     demo_world).
Proof.
  apply (empty_text_rejected_by_main demo_env
           (mkArgs ActTts (Some "") None None "output.wav") demo_world);
    reflexivity.
Defined.

(** C2, counterexample. The registry holds a voice whose id is ["default"];
    once that voice has been resolved, its engine, built from
    ["/voices/alt"], sits under the key ["default"]. The first call with no
    voice id, and the first call with an unregistered id, then return that
    engine: it was not constructed from the built-in model location. *)
Lemma default_key_shared_with_registered_voice :
  effects (os (run_op demo_env (OpGetTts (Some "default")) demo_world))
  = [EGetTts (Some "default"); ESparkTTS "/voices/alt" Cpu] /\
  unregistered (Some "ghost") (run_op demo_env (OpGetTts (Some "default")) demo_world) /\
  (get_tts demo_env None
     (run_op demo_env (OpGetTts (Some "default")) demo_world)).1
  = Ok (mkEngine 0 "/voices/alt" Cpu) /\
  (get_tts demo_env (Some "ghost")
     (run_op demo_env (OpGetTts (Some "default")) demo_world)).1
  = Ok (mkEngine 0 "/voices/alt" Cpu) /\
  Path.to_string (default_model_dir demo_env) = "/app/pretrained_models/Spark-TTS-0.5B" /\
  eng_model_dir (mkEngine 0 "/voices/alt" Cpu)
  <> Path.to_string (default_model_dir demo_env).
Proof. vm_compute. repeat split. discriminate. Qed.

(** C2, witness: in the sample installation a call with an unregistered id
    builds the default engine, and a later call with no id returns the same
    object. *)
Lemma default_engine_spec_witness :
  unregistered (Some "ghost") demo_world /\
  get_tts demo_env (Some "ghost") demo_world
  = (Ok (mkEngine 0 "/app/pretrained_models/Spark-TTS-0.5B" Cpu),
     with_model "default" (mkEngine 0 "/app/pretrained_models/Spark-TTS-0.5B" Cpu)
       (constructing "/app/pretrained_models/Spark-TTS-0.5B" Cpu
          (with_os (log (EGetTts (Some "ghost"))) demo_world))) /\
  (get_tts demo_env None
     (run_ops demo_env [OpGetTts (Some "alice")]
        (get_tts demo_env (Some "ghost") demo_world).2)).1
  = Ok (mkEngine 0 "/app/pretrained_models/Spark-TTS-0.5B" Cpu).
Proof.
  assert (Hu : unregistered (Some "ghost") demo_world) by reflexivity.
  destruct (default_engine_spec demo_env (Some "ghost") demo_world Hu)
    as (_ & _ & Hbuilt & Hlater).
  split; [exact Hu | split].
  - apply Hbuilt; reflexivity.
  - rewrite (Hlater (mkEngine 0 "/app/pretrained_models/Spark-TTS-0.5B" Cpu)
               (get_tts demo_env (Some "ghost") demo_world).2
               ltac:(vm_compute; reflexivity)
               [OpGetTts (Some "alice")] None I).
    reflexivity.
Defined.

(** C3, witness: the voice ["broken"] of the sample installation, whose
    first construction fails. *)
Lemma engine_load_error_leaves_cache_witness :
  VoiceConfig.get_voice "broken" (voice_config demo_world)
  = Some (mkVoice "/voices/broken" "Broken") /\
  tts_models demo_world !! "broken" = None /\
  os_path_exists (os demo_world) "/voices/broken" = true /\
  SparkTTS_init demo_env 0 "/voices/broken" (device demo_env)
  = Some (Exn OtherError "config.yaml is malformed") /\
  (get_tts demo_env (Some "broken") demo_world).1
  = Raise (Exn RuntimeError
             "Failed to load model for voice 'broken': config.yaml is malformed") /\
  tts_models (get_tts demo_env (Some "broken") demo_world).2 !! "broken" = None.
Proof.
  assert (H1 : VoiceConfig.get_voice "broken" (voice_config demo_world)
               = Some (mkVoice "/voices/broken" "Broken")) by reflexivity.
  assert (H2 : tts_models demo_world !! "broken" = None) by reflexivity.
  assert (H3 : os_path_exists (os demo_world) "/voices/broken" = true)
    by (vm_compute; reflexivity).
  assert (H4 : SparkTTS_init demo_env 0 "/voices/broken" (device demo_env)
               = Some (Exn OtherError "config.yaml is malformed")) by reflexivity.
  destruct (engine_load_error_leaves_cache demo_env "broken"
              (mkVoice "/voices/broken" "Broken") demo_world
              (Exn OtherError "config.yaml is malformed") H1 H2 H3 H4)
    as (Hraise & _ & Hnone & _ & _).
  split; [exact H1 | split; [exact H2 | split; [exact H3 | split; [exact H4 | split]]]].
  - rewrite Hraise. reflexivity.
  - rewrite Hraise. exact Hnone.
Defined.


(** C5, witness: the default engine of the sample installation stays in
    place while the registry is changed and other engines are loaded. *)
Lemma cache_entries_are_permanent_witness :
  tts_models (run_ops demo_env [OpGetTts None] demo_world) !! "default"
  = Some (mkEngine 0 "/app/pretrained_models/Spark-TTS-0.5B" Cpu) /\
  tts_models
    (run_ops demo_env
       ([OpGetTts None] ++
        [OpRemoveVoice "alice"; OpGetTts (Some "default");
         OpAddVoice "default" "/voices/broken" "Other";
         OpProcess (Some "hello") (Some "default") None "out/a.wav";
         OpListVoices])
       demo_world) !! "default"
  = Some (mkEngine 0 "/app/pretrained_models/Spark-TTS-0.5B" Cpu).
Proof.
  assert (H : tts_models (run_ops demo_env [OpGetTts None] demo_world) !! "default"
              = Some (mkEngine 0 "/app/pretrained_models/Spark-TTS-0.5B" Cpu))
    by (vm_compute; reflexivity).
  split; [exact H |].
  exact (cache_entries_are_permanent demo_env [OpGetTts None] _ demo_world
           "default" _ H).
Defined.

(** C6, counterexample. Without the Spark-TTS modules a request whose
    custom voice path does not exist ends in the fallback branch: [file] is
    the output path, not null, and the empty WAV file is written. *)
Lemma missing_custom_voice_while_unavailable :
  path_exists (os demo_world) (Path.of_string "missing.wav") = false /\
  (process_tts_request offline_env (Some "hello") None (Some "missing.wav")
     "out/a.wav" demo_world).1
  = Ok [("success", JBool false);
        ("message",
         JStr "Spark-TTS is not properly installed: Spark-TTS modules not available. Created an empty audio file as fallback.");
        ("file", JStr "out/a.wav")] /\
  files (os (process_tts_request offline_env (Some "hello") None (Some "missing.wav")
               "out/a.wav" demo_world).2) !! "out/a.wav"
  = Some (File (Bytes EMPTY_WAV)).
Proof. vm_compute. repeat split. Qed.

(** The same request in an installation without the built-in model: engine
    resolution fails first, and the message names the model directory. *)
Lemma failed_resolution_hides_missing_voice :
  (process_tts_request demo_env (Some "hello") None (Some "missing.wav")
     "out/a.wav" bare_world).1
  = Ok [("success", JBool false);
        ("message",
         JStr "File not found: Default model directory not found: /app/pretrained_models/Spark-TTS-0.5B. Please run download_model.py first.");
        ("file", JNull);
        ("trace",
         JStr "Traceback (most recent call last): Default model directory not found: /app/pretrained_models/Spark-TTS-0.5B. Please run download_model.py first.");
        ("log_file", JStr "tts_error.log")].
Proof. vm_compute. reflexivity. Qed.

(** A custom voice path that does not exist when the request arrives, but
    is the directory of the output: [mkdir] creates it, the check passes
    and the engine is called in cloning mode. *)
Lemma custom_voice_path_created_by_mkdir :
  path_exists (os demo_world) (Path.of_string "samples/new") = false /\
  (process_tts_request demo_env (Some "hello") None (Some "samples/new")
     "samples/new/a.wav" demo_world).1
  = Ok [("success", JBool true);
        ("file", JStr "samples/new/a.wav");
        ("message", JStr "Audio generated successfully using CPU");
        ("voice", JObj [])].
Proof. vm_compute. split; reflexivity. Qed.

(** C6, witness: the same request where the modules are available. *)
Lemma missing_custom_voice_failure_witness :
  SPARK_TTS_AVAILABLE demo_env = true /\
  path_exists (os demo_world) (Path.of_string "missing.wav") = false /\
  (process_tts_request demo_env (Some "hello") None (Some "missing.wav")
     "out/a.wav" demo_world).1
  = Ok [("success", JBool false);
        ("message", JStr "File not found: Voice file not found: missing.wav");
        ("file", JNull);
        ("trace",
         JStr "Traceback (most recent call last): Voice file not found: missing.wav");
        ("log_file", JStr "tts_error.log")] /\
  files (os (process_tts_request demo_env (Some "hello") None (Some "missing.wav")
               "out/a.wav" demo_world).2) !! "out/a.wav" = None.
Proof.
  assert (Hav : SPARK_TTS_AVAILABLE demo_env = true) by reflexivity.
  assert (Hmiss : path_exists (os demo_world) (Path.of_string "missing.wav") = false)
    by (vm_compute; reflexivity).
  destruct (missing_custom_voice_failure demo_env (Some "hello") None "missing.wav"
              "out/a.wav" demo_world
              (mkEngine 0 "/app/pretrained_models/Spark-TTS-0.5B" Cpu)
              (get_tts demo_env None
                 (with_os (mkdir_parents (Path.parent (Path.of_string "out/a.wav")))
                    demo_world)).2
              Hav ltac:(vm_compute; reflexivity) ltac:(vm_compute; reflexivity))
    as (Hres & Hfiles & _).
  split; [exact Hav | split; [exact Hmiss | split]].
  - rewrite Hres. reflexivity.
  - rewrite Hres. cbn [snd]. rewrite Hfiles. vm_compute. reflexivity.
Defined.


(** C8, witness: removing a voice that is registered and one that is not. *)
Lemma remove_voice_spec_witness :
  (exists c' o',
     VoiceConfig.remove_voice "alice" demo_config demo_os = (true, c', o') /\
     VoiceConfig.get_voice "alice" c' = None) /\
  VoiceConfig.remove_voice "ghost" demo_config demo_os = (false, demo_config, demo_os).
Proof.
  split.
  - apply (proj1 (remove_voice_spec "alice" demo_config demo_os)).
    exists (mkVoice "/voices/alt" "Alice"). reflexivity.
  - apply (proj2 (remove_voice_spec "ghost" demo_config demo_os)). reflexivity.
Defined.

(** C9, counterexample. The voice registered under the id ["default"] is
    resolved, which caches its engine under that id, and is then removed
    from the registry: [get_tts("default")] still returns that engine. *)
Lemma removed_default_voice_still_resolved :
  reachable demo_env (run_op demo_env (OpGetTts (Some "default")) demo_world) /\
  tts_models (run_op demo_env (OpGetTts (Some "default")) demo_world) !! "default"
  = Some (mkEngine 0 "/voices/alt" Cpu) /\
  unregistered (Some "default")
    (remove_voice "default" (run_op demo_env (OpGetTts (Some "default")) demo_world)) /\
  (get_tts demo_env (Some "default")
     (remove_voice "default"
        (run_op demo_env (OpGetTts (Some "default")) demo_world))).1
  = Ok (mkEngine 0 "/voices/alt" Cpu).
Proof.
  split.
  - apply reach_op, (reach_init demo_env "/app/python" demo_os). apply demo_boot.
  - vm_compute. repeat split.
Qed.

(** C9, witness: the voice ["alice"] is resolved and then removed; the next
    call for it builds and returns the default engine, a second object, and
    the first one stays in the cache. *)
Lemma removed_voice_resolves_to_default_witness :
  reachable demo_env (run_op demo_env (OpGetTts (Some "alice")) demo_world) /\
  "alice" <> "default" /\
  tts_models (run_op demo_env (OpGetTts (Some "alice")) demo_world) !! "alice"
  = Some (mkEngine 0 "/voices/alt" Cpu) /\
  (get_tts demo_env (Some "alice")
     (remove_voice "alice"
        (run_op demo_env (OpGetTts (Some "alice")) demo_world))).1
  = Ok (mkEngine 1 "/app/pretrained_models/Spark-TTS-0.5B" Cpu) /\
  mkEngine 1 "/app/pretrained_models/Spark-TTS-0.5B" Cpu <> mkEngine 0 "/voices/alt" Cpu /\
  tts_models
    (get_tts demo_env (Some "alice")
       (remove_voice "alice"
          (run_op demo_env (OpGetTts (Some "alice")) demo_world))).2 !! "alice"
  = Some (mkEngine 0 "/voices/alt" Cpu).
Proof.
  assert (Hr : reachable demo_env
                 (run_op demo_env (OpGetTts (Some "alice")) demo_world)).
  { apply reach_op, (reach_init demo_env "/app/python" demo_os).
    vm_compute. reflexivity. }
  assert (Hne : "alice" <> "default") by discriminate.
  assert (Hc : tts_models (run_op demo_env (OpGetTts (Some "alice")) demo_world)
               !! "alice" = Some (mkEngine 0 "/voices/alt" Cpu))
    by (vm_compute; reflexivity).
  destruct (removed_voice_resolves_to_default demo_env _ "alice" _ Hr Hne Hc)
    as (_ & _ & Hret & _).
  destruct (Hret (mkEngine 1 "/app/pretrained_models/Spark-TTS-0.5B" Cpu)
              (get_tts demo_env (Some "alice")
                 (remove_voice "alice"
                    (run_op demo_env (OpGetTts (Some "alice")) demo_world))).2
              ltac:(vm_compute; reflexivity))
    as (_ & Hdiff & Hkept).
  split; [exact Hr | split; [exact Hne | split; [exact Hc | split; [| split]]]].
  - vm_compute. reflexivity.
  - exact Hdiff.
  - exact Hkept.
Defined.

(** * Further properties *)

(** ** The registry, beyond one call *)







(** X2. [add_voice] is an upsert: the last call for an id wins, whatever
    was stored under it before, every other id keeps its entry, and adding
    the same data twice leaves the mapping and the files as the first call
    left them. *)
Theorem add_voice_upsert voice_id dir1 name1 dir2 name2 c o :
  let s1 := VoiceConfig.add_voice voice_id dir1 name1 c o in
  let s2 := VoiceConfig.add_voice voice_id dir2 name2 s1.1 s1.2 in
  let s := VoiceConfig.add_voice voice_id dir2 name2 c o in
  (s2.1 = s.1 /\ files s2.2 = files s.2) /\
  (forall other, other <> voice_id ->
     VoiceConfig.get_voice other s1.1 = VoiceConfig.get_voice other c) /\
  (dir1 = dir2 -> name1 = name2 -> s2.1 = s1.1 /\ files s2.2 = files s1.2).
Proof.
  unfold VoiceConfig.add_voice, VoiceConfig._save_config, write_file; simpl.
  split; [| split].
  - rewrite !insert_insert_eq. done.
  - intros other Hne. unfold VoiceConfig.get_voice; simpl.
    by rewrite lookup_insert_ne.
  - intros -> ->. rewrite !insert_insert_eq. done.
Qed.



(** ** The registry command line *)





(** X6. [remove] tells the truth and writes only when it has to: for an id
    that is not in the document the process prints that the voice was not
    found and leaves the files alone; for an id that is, it prints that the
    voice was removed, and the document no longer holds the id. *)
Theorem remove_command_reports dir voice_id o c :
  VoiceConfig.init dir o = inr c ->
  (VoiceConfig.voices c !! voice_id = None ->
   ManageVoices.main dir (ManageVoices.Remove voice_id) o
   = inr (print ("Voice '" +:+ voice_id +:+ "' not found") o)) /\
  (is_Some (VoiceConfig.voices c !! voice_id) ->
   exists o' c',
     ManageVoices.main dir (ManageVoices.Remove voice_id) o
     = inr (print ("Voice '" +:+ voice_id +:+ "' removed successfully") o') /\
     VoiceConfig.init dir o' = inr c' /\
     VoiceConfig.get_voice voice_id c' = None).
Proof.
  intros Hinit. unfold ManageVoices.main. rewrite Hinit.
  unfold VoiceConfig.remove_voice. split.
  - intros Hout. rewrite bool_decide_eq_false_2; [done |].
    rewrite Hout. by intros [? ?].
  - intros Hin. rewrite bool_decide_eq_true_2 by done.
    eexists _, _. split; [reflexivity | split].
    + apply init_after_save. simpl. by eapply init_config_path.
    + unfold VoiceConfig.get_voice; simpl. apply lookup_delete_eq.
Qed.


(** ** The engine cache, beyond the default engine *)

Lemma cache_key_cases voice_id w :
  (unregistered voice_id w /\ cache_key voice_id w = "default") \/
  (exists v voice,
     voice_id = Some v /\ cache_key voice_id w = v /\
     VoiceConfig.get_voice v (voice_config w) = Some voice).
Proof.
  destruct voice_id as [v |]; simpl; [| by left].
  destruct (VoiceConfig.get_voice v (voice_config w)) as [voice |] eqn:Hv; simpl.
  - right. by exists v, voice.
  - by left.
Qed.

(** [get_tts] works on the entry of the cache key of its argument. *)
Lemma get_tts_step_key env voice_id w :
  cache_step (with_os (log (EGetTts voice_id)) w) (cache_key voice_id w)
    (get_tts env voice_id w).
Proof.
  destruct (cache_key_cases voice_id w) as [[Hu ->] | (v & voice & -> & -> & Hv)].
  - rewrite get_tts_unregistered by done. apply default_tts_step.
  - rewrite (get_tts_registered _ _ _ _ Hv). apply voice_tts_step.
Qed.

Section CacheExtras.

Variable env : Env.

(** X8. [validate_voice] foretells [get_tts]. For a registered voice with no
    cached engine: if [validate_voice] is false, [get_tts] raises
    [FileNotFoundError] naming the voice and its model directory, without
    calling the constructor and without touching the cache; if it is true,
    [get_tts] goes on to call the constructor on that directory. For an id
    that is not registered [validate_voice] is false. *)
Theorem validate_voice_foretells_get_tts v w :
  tts_models w !! v = None ->
  (VoiceConfig.get_voice v (voice_config w) = None ->
   VoiceConfig.validate_voice v (voice_config w) (os w) = false) /\
  (forall voice,
     VoiceConfig.get_voice v (voice_config w) = Some voice ->
     (VoiceConfig.validate_voice v (voice_config w) (os w) = false ->
      get_tts env (Some v) w
      = (Raise (Exn FileNotFoundError
                  ("Model directory for voice '" +:+ v
                   +:+ "' not found: " +:+ model_dir voice)),
         with_os (log (EGetTts (Some v))) w)) /\
     (VoiceConfig.validate_voice v (voice_config w) (os w) = true ->
      effects (os (get_tts env (Some v) w).2)
      = (effects (os w)
         ++ [EGetTts (Some v); ESparkTTS (model_dir voice) (device env)])%list)).
Proof.
  intros Hc. unfold VoiceConfig.validate_voice. split.
  - by intros ->.
  - intros voice Hv. rewrite Hv. split; intros Hval.
    + rewrite (get_tts_registered _ _ _ _ Hv).
      by apply voice_tts_no_model.
    + rewrite (get_tts_registered _ _ _ _ Hv).
      destruct (SparkTTS_init env (constructions w) (model_dir voice) (device env))
        as [ex |] eqn:Hi.
      * rewrite (voice_tts_init_fails env v voice _ ex) by done.
        simpl. by rewrite <- app_assoc.
      * rewrite (voice_tts_built env v voice) by done.
        simpl. by rewrite <- app_assoc.
Qed.

(** X9. The engine of a registered voice is loaded once and not reloaded.
    The first [get_tts] for a registered voice whose model directory exists
    and whose construction succeeds builds the engine from that directory
    on the device of the process and caches it under the voice id. After
    any further operations, as long as the id has some entry in the
    registry, [get_tts] returns that same object without constructing, even
    if the entry now names another model directory. *)
Theorem registered_voice_loaded_once v voice w :
  VoiceConfig.get_voice v (voice_config w) = Some voice ->
  tts_models w !! v = None ->
  os_path_exists (os w) (model_dir voice) = true ->
  SparkTTS_init env (constructions w) (model_dir voice) (device env) = None ->
  let e := mkEngine (constructions w) (model_dir voice) (device env) in
  let w' := with_model v e
              (constructing (model_dir voice) (device env)
                 (with_os (log (EGetTts (Some v))) w)) in
  get_tts env (Some v) w = (Ok e, w') /\
  forall ops,
    is_Some (VoiceConfig.get_voice v (voice_config (run_ops env ops w'))) ->
    get_tts env (Some v) (run_ops env ops w')
    = (Ok e, with_os (log (EGetTts (Some v))) (run_ops env ops w')).
Proof.
  intros Hv Hc Hdir Hi e w'. split.
  - rewrite (get_tts_registered _ _ _ _ Hv).
    exact (voice_tts_built env v voice (with_os (log (EGetTts (Some v))) w)
             Hc Hv Hdir Hi).
  - intros ops [voice' Hv'].
    rewrite (get_tts_registered _ _ _ _ Hv').
    apply voice_tts_cached. simpl.
    apply (ext_cache _ _ (run_ops_extends env ops w')).
    unfold w', with_model; simpl. apply lookup_insert_eq.
Qed.

(** X10. Engine identity follows the cache key. In a process, let a call of
    [get_tts] return an engine, and let a later call return one. If the two
    calls have the same cache key (the same registered id, or both fall
    back to the default), the later call returns the same object and
    constructs nothing; if their cache keys differ, the two objects
    differ. *)
Theorem engine_identity_follows_key a1 a2 ops w e1 w1 e2 w2 :
  reachable env w ->
  get_tts env a1 w = (Ok e1, w1) ->
  get_tts env a2 (run_ops env ops w1) = (Ok e2, w2) ->
  (cache_key a2 (run_ops env ops w1) = cache_key a1 w ->
   e2 = e1 /\ constructions w2 = constructions (run_ops env ops w1)) /\
  (cache_key a2 (run_ops env ops w1) <> cache_key a1 w -> e2 <> e1).
Proof.
  intros Hr Hg1 Hg2.
  assert (Hk1 : tts_models (run_ops env ops w1) !! cache_key a1 w = Some e1).
  { apply (ext_cache _ _ (run_ops_extends env ops w1)).
    eapply cache_step_returns. rewrite <- Hg1. apply get_tts_step_key. }
  assert (Hr1 : reachable env (run_ops env ops w1)).
  { apply reachable_run_ops.
    replace w1 with (run_op env (OpGetTts a1) w) by (simpl; by rewrite Hg1).
    by constructor. }
  pose proof (get_tts_step_key env a2 (run_ops env ops w1)) as Hs.
  rewrite Hg2 in Hs. split.
  - intros Hk. rewrite Hk in Hs. inversion Hs; subst; simpl in *; try congruence.
    split; [congruence | done].
  - intros Hk.
    refine (cache_step_other (with_os (log (EGetTts a2)) (run_ops env ops w1))
              _ e2 w2 (cache_key a1 w) e1
              (reachable_cache_wf env _ Hr1) Hs _ Hk1).
    congruence.
Qed.

(** What a call of [get_tts] can add to the cache: one engine, numbered by
    the count of constructor calls and bound to the device of the process,
    under the cache key of the call, and only if that key had no entry. *)
Lemma get_tts_new_entry voice_id w k e :
  tts_models (get_tts env voice_id w).2 !! k = Some e ->
  tts_models w !! k = Some e \/
  (k = cache_key voice_id w /\ tts_models w !! k = None /\
   eng_id e = constructions w /\ eng_device e = device env).
Proof.
  intros He.
  destruct (cache_key_cases voice_id w) as [[Hu Hk] | (v & voice & -> & Hk & Hv)].
  - rewrite Hk. rewrite get_tts_unregistered in He by done.
    set (w1 := with_os (log (EGetTts voice_id)) w) in *.
    destruct (tts_models w !! "default") as [e0 |] eqn:Hc.
    { rewrite (default_tts_cached env w1 e0 Hc) in He. by left. }
    destruct (path_exists (os w) (default_model_dir env)) eqn:Hdir.
    2: { rewrite (default_tts_no_model env w1 Hc Hdir) in He. by left. }
    destruct (SparkTTS_init env (constructions w)
                (Path.to_string (default_model_dir env)) (device env))
      as [ex |] eqn:Hi.
    { rewrite (default_tts_init_fails env w1 ex Hc Hdir Hi) in He. by left. }
    rewrite (default_tts_built env w1 Hc Hdir Hi) in He. simpl in He.
    rewrite lookup_insert in He. case_decide as Hkey.
    + right. inversion He; subst. done.
    + by left.
  - rewrite Hk. rewrite (get_tts_registered _ _ _ _ Hv) in He.
    set (w1 := with_os (log (EGetTts (Some v))) w) in *.
    destruct (tts_models w !! v) as [e0 |] eqn:Hc.
    { rewrite (voice_tts_cached env v w1 e0 Hc) in He. by left. }
    destruct (os_path_exists (os w) (model_dir voice)) eqn:Hdir.
    2: { rewrite (voice_tts_no_model env v voice w1 Hc Hv Hdir) in He. by left. }
    destruct (SparkTTS_init env (constructions w) (model_dir voice) (device env))
      as [ex |] eqn:Hi.
    { rewrite (voice_tts_init_fails env v voice w1 ex Hc Hv Hdir Hi) in He. by left. }
    rewrite (voice_tts_built env v voice w1 Hc Hv Hdir Hi) in He. simpl in He.
    rewrite lookup_insert in He. case_decide as Hkey.
    + right. inversion He; subst. done.
    + by left.
Qed.

(** A call of [get_tts] makes at most one constructor call, and none when
    the cache key has an entry. *)
Lemma get_tts_constructions voice_id w :
  constructions (get_tts env voice_id w).2 <= S (constructions w) /\
  (is_Some (tts_models w !! cache_key voice_id w) ->
   constructions (get_tts env voice_id w).2 = constructions w).
Proof.
  pose proof (get_tts_step_key env voice_id w) as Hs.
  destruct (get_tts env voice_id w) as [r w'].
  inversion Hs; subst; simpl in *; (split; [lia |]); intros [e' He']; congruence.
Qed.

End CacheExtras.

(** ** The one place where a request touches the cache *)

Lemma keeps_ret {A} (a : A) : keeps_cache (ret a).
Proof. by intros w. Qed.

Lemma keeps_raise {A} e : keeps_cache (@raise A e).
Proof. by intros w. Qed.

Lemma keeps_gets {A} (f : World -> A) : keeps_cache (gets f).
Proof. by intros w. Qed.

Lemma keeps_raise_if b e : keeps_cache (raise_if b e).
Proof. destruct b; [apply keeps_raise | apply keeps_ret]. Qed.

Lemma keeps_on_os f : keeps_cache (on_os f).
Proof. by intros w. Qed.

Lemma keeps_emit ev : keeps_cache (emit ev).
Proof. apply keeps_on_os. Qed.

Lemma keeps_bind {A B} (m : M A) (k : A -> M B) :
  keeps_cache m -> (forall a, keeps_cache (k a)) -> keeps_cache (bind m k).
Proof.
  intros Hm Hk w. unfold bind. specialize (Hm w).
  destruct (m w) as [[a | e] w1]; simpl in *; [| done].
  destruct (Hk a w1) as [H1 H2]. destruct Hm as [H3 H4]. split; congruence.
Qed.

Lemma keeps_try_except {A} (m : M A) (h : exn -> M A) :
  keeps_cache m -> (forall e, keeps_cache (h e)) -> keeps_cache (try_except m h).
Proof.
  intros Hm Hh w. unfold try_except. specialize (Hm w).
  destruct (m w) as [[a | e] w1]; simpl in *; [done |].
  destruct (Hh e w1) as [H1 H2]. destruct Hm as [H3 H4]. split; congruence.
Qed.

#[local] Hint Resolve keeps_ret keeps_raise keeps_gets keeps_raise_if keeps_on_os
  keeps_emit : frame.

(** Splits a computation that does not touch the cache into its
    statements. *)
Ltac keeps :=
  repeat first
    [ progress auto with frame
    | apply keeps_bind; [| intros ?]
    | apply keeps_try_except; [| intros ?]
    | match goal with
      | |- keeps_cache (if ?b then _ else _) => destruct b
      | |- keeps_cache (match ?x with _ => _ end) => destruct x
      end ].

(** The cache and the count of constructor calls of [w'] are those of
    [w]. *)
Lemma same_cache_trans w1 w2 w3 :
  tts_models w2 = tts_models w1 /\ constructions w2 = constructions w1 ->
  tts_models w3 = tts_models w2 /\ constructions w3 = constructions w2 ->
  tts_models w3 = tts_models w1 /\ constructions w3 = constructions w1.
Proof. intros [? ?] [? ?]. split; congruence. Qed.

Section RequestCache.

Variable env : Env.

Lemma keeps_list_voices : keeps_cache (list_voices env).
Proof. unfold list_voices. keeps. Qed.

Lemma keeps_handle_list_voices : keeps_cache (handle_list_voices env).
Proof. unfold handle_list_voices. pose proof keeps_list_voices. keeps. Qed.

Lemma keeps_call_inference e a : keeps_cache (call_inference env e a).
Proof. unfold call_inference. keeps. Qed.

Lemma keeps_soundfile_write path wav rate :
  keeps_cache (soundfile_write env path wav rate).
Proof. unfold soundfile_write. keeps. Qed.

Lemma keeps_handler text voice_id custom_voice_path output_path e :
  keeps_cache (handler env text voice_id custom_voice_path output_path e).
Proof. unfold handler, failure. keeps. Qed.

(** The [try] block is the gate, engine resolution and the rest. *)
Lemma synthesize_parts text voice_id custom_voice_path output_path :
  synthesize env text voice_id custom_voice_path output_path
  = (exec raise_if (negb (SPARK_TTS_AVAILABLE env))
            (Exn ImportError "Spark-TTS modules not available");
     do tts_engine <- get_tts env voice_id;
     finish_request env text voice_id custom_voice_path output_path tts_engine).
Proof. reflexivity. Qed.

Lemma keeps_obtain_wav text custom_voice_path e :
  keeps_cache (obtain_wav env text custom_voice_path e).
Proof. unfold obtain_wav. pose proof keeps_call_inference. keeps. Qed.

Lemma keeps_finish_request text voice_id custom_voice_path output_path e :
  keeps_cache (finish_request env text voice_id custom_voice_path output_path e).
Proof.
  unfold finish_request.
  pose proof keeps_obtain_wav. pose proof keeps_soundfile_write. keeps.
Qed.

(** A request changes the cache through its one call of [get_tts], made
    right after the directory of the output is created, or not at all. *)
Lemma process_cache text voice_id custom_voice_path output_path w :
  let w1 := with_os (mkdir_parents (Path.parent (Path.of_string output_path))) w in
  let w' := (process_tts_request env text voice_id custom_voice_path output_path w).2 in
  (tts_models w' = tts_models w /\ constructions w' = constructions w) \/
  (tts_models w' = tts_models (get_tts env voice_id w1).2 /\
   constructions w' = constructions (get_tts env voice_id w1).2).
Proof.
  intros w1 w'. unfold w', process_tts_request.
  rewrite (bind_ok _ _ w tt w1) by reflexivity.
  unfold try_except. rewrite synthesize_parts.
  destruct (SPARK_TTS_AVAILABLE env); simpl raise_if.
  - rewrite (bind_ok _ _ w1 tt w1) by reflexivity.
    destruct (get_tts env voice_id w1) as [[e | ex] w2] eqn:Hg; right.
    + rewrite (bind_ok _ _ w1 e w2 Hg).
      pose proof (keeps_finish_request text voice_id custom_voice_path
                    (Path.of_string output_path) e w2) as Hk.
      destruct (finish_request env text voice_id custom_voice_path
                  (Path.of_string output_path) e w2) as [[d | ex] w3];
        simpl in *.
      * exact Hk.
      * eapply same_cache_trans; [exact Hk |].
        apply keeps_handler.
    + rewrite (bind_raise _ _ w1 ex w2 Hg). apply keeps_handler.
  - rewrite (bind_raise _ _ w1 (Exn ImportError "Spark-TTS modules not available") w1)
      by reflexivity.
    left. apply (keeps_handler _ _ _ _ _ w1).
Qed.

Lemma main_cache args w :
  (tts_models (main env args w).2 = tts_models w /\
   constructions (main env args w).2 = constructions w) \/
  (exists w1,
     tts_models w1 = tts_models w /\ constructions w1 = constructions w /\
     voice_config w1 = voice_config w /\
     tts_models (main env args w).2 = tts_models (get_tts env (voice_id args) w1).2 /\
     constructions (main env args w).2
     = constructions (get_tts env (voice_id args) w1).2).
Proof.
  unfold main, try_except. destruct (action args).
  - destruct (truthy_str (text args)); simpl raise_if.
    + rewrite (bind_ok _ _ w tt w) by reflexivity.
      pose proof (process_cache (text args) (voice_id args) (custom_voice args)
                    (output args) w) as Hp.
      destruct (process_tts_request env (text args) (voice_id args)
                  (custom_voice args) (output args) w) as [[d | ex] w'];
        simpl in *.
      * destruct Hp as [Hp | [Hp1 Hp2]]; [by left | right].
        exists (with_os (mkdir_parents (Path.parent (Path.of_string (output args)))) w).
        split; [done | split; [done | split; [done | split; [exact Hp1 | exact Hp2]]]].
      * destruct Hp as [Hp | [Hp1 Hp2]]; [by left | right].
        exists (with_os (mkdir_parents (Path.parent (Path.of_string (output args)))) w).
        split; [done | split; [done | split; [done | split; [exact Hp1 | exact Hp2]]]].
    + left. done.
  - left. pose proof (keeps_handle_list_voices w) as Hk.
    destruct (handle_list_voices env w) as [[d | ex] w']; simpl in *; done.
Qed.


End RequestCache.

Section CacheInvariants.

Variable env : Env.

Lemma get_tts_cached_same voice_id w :
  is_Some (tts_models w !! cache_key voice_id w) ->
  tts_models (get_tts env voice_id w).2 = tts_models w /\
  constructions (get_tts env voice_id w).2 = constructions w.
Proof.
  intros [e' He'].
  pose proof (get_tts_step_key env voice_id w) as Hs.
  destruct (get_tts env voice_id w) as [r w'].
  inversion Hs; subst; simpl in *; first [done | congruence].
Qed.

Lemma get_tts_on_device voice_id w :
  cache_on_device env w -> cache_on_device env (get_tts env voice_id w).2.
Proof.
  intros Hd k e He.
  destruct (get_tts_new_entry env voice_id w k e He) as [Hold | (_ & _ & _ & Hdev)].
  - by eapply Hd.
  - exact Hdev.
Qed.

Lemma on_device_same w w' :
  tts_models w' = tts_models w -> cache_on_device env w -> cache_on_device env w'.
Proof. intros Heq Hd k e. rewrite Heq. apply Hd. Qed.

Lemma run_op_on_device o w :
  cache_on_device env w -> cache_on_device env (run_op env o w).
Proof.
  intros Hd.
  destruct o as [vid | | vid dir name | vid | text vid cvp out | args]; simpl.
  - by apply get_tts_on_device.
  - exact Hd.
  - exact Hd.
  - eapply on_device_same; [apply remove_voice_cache | exact Hd].
  - destruct (process_cache env text vid cvp out w) as [[Hc _] | [Hc _]].
    + by eapply on_device_same.
    + eapply on_device_same; [exact Hc |]. by apply get_tts_on_device.
  - destruct (main_cache env args w) as [[Hc _] | (w1 & Hc1 & _ & _ & Hc & _)].
    + by eapply on_device_same.
    + eapply on_device_same; [exact Hc |]. apply get_tts_on_device.
      by eapply on_device_same.
Qed.

(** X11. In every state of a process, every engine in the cache is bound to
    the one device of the process, chosen at start-up from the CUDA probe,
    and is an object made by one of the constructor calls counted so
    far. *)
Theorem cached_engines_on_process_device w k e :
  reachable env w ->
  tts_models w !! k = Some e ->
  eng_device e = device env /\ eng_id e < constructions w.
Proof.
  intros Hr He. split.
  - revert k e He. induction Hr as [dir o w Hinit | o w Hr IH].
    + unfold VoiceManager_init in Hinit.
      destruct (VoiceConfig.init dir o); [done |]. inversion Hinit; subst.
      intros k e. simpl. by rewrite lookup_empty.
    + by apply run_op_on_device.
  - by apply (proj1 (reachable_cache_wf env w Hr) k e).
Qed.

(** X12. A request constructs at most one engine, and none when the cache
    already holds an engine under the cache key of its voice id: it then
    leaves the cache exactly as it was. *)
Theorem request_constructs_at_most_one text voice_id custom_voice_path output_path w :
  let w' := (process_tts_request env text voice_id custom_voice_path output_path w).2 in
  constructions w' <= S (constructions w) /\
  (is_Some (tts_models w !! cache_key voice_id w) ->
   constructions w' = constructions w /\ tts_models w' = tts_models w).
Proof.
  intros w'.
  set (w1 := with_os (mkdir_parents (Path.parent (Path.of_string output_path))) w).
  destruct (process_cache env text voice_id custom_voice_path output_path w)
    as [[Hc Hn] | [Hc Hn]]; fold w' in Hc, Hn.
  - split; [lia | done].
  - fold w1 in Hc, Hn. split.
    + rewrite Hn. apply (get_tts_constructions env voice_id w1).
    + intros Hin.
      destruct (get_tts_cached_same voice_id w1 Hin) as [Hc1 Hn1].
      split; [by rewrite Hn, Hn1 | by rewrite Hc, Hc1].
Qed.

End CacheInvariants.

(** ** Paths in normal form *)

Lemma append_nil_l s : "" +:+ s = s.
Proof. reflexivity. Qed.

Lemma append_cons a s1 s2 : String a s1 +:+ s2 = String a (s1 +:+ s2).
Proof. reflexivity. Qed.

Lemma append_nil_r s : s +:+ "" = s.
Proof. induction s as [| a s IH]; [done |]. by rewrite append_cons, IH. Qed.

Lemma append_assoc_char acc c s :
  (acc +:+ String c "") +:+ s = acc +:+ String c s.
Proof.
  induction acc as [| a acc IH]; [done |]. by rewrite !append_cons, IH.
Qed.

Lemma no_slash_snoc acc c :
  no_slash acc = true -> Ascii.eqb c "/" = false ->
  no_slash (acc +:+ String c "") = true.
Proof.
  intros Ha Hc. induction acc as [| a acc IH].
  - rewrite append_nil_l. simpl. by rewrite Hc.
  - rewrite append_cons. simpl in *.
    apply andb_true_iff in Ha as [Ha1 Ha2]. rewrite Ha1. by apply IH.
Qed.

Lemma split_slash_no_slash s : forall acc,
  no_slash acc = true ->
  List.Forall (fun x => no_slash x = true) (Path.split_slash acc s).
Proof.
  induction s as [| c s IH]; intros acc Hacc; simpl.
  - by constructor.
  - destruct (Ascii.eqb c "/") eqn:Hc.
    + constructor; [done | by apply IH].
    + apply IH. by apply no_slash_snoc.
Qed.

(** [Path(s)] is in normal form. *)
Lemma of_string_normal s : normal_path (Path.of_string s).
Proof.
  split.
  - unfold Path.of_string; simpl.
    destruct (Path.leading_slashes s) as [| [| [| n]]]; auto.
  - unfold Path.of_string; simpl.
    apply List.Forall_forall. intros x Hx. apply List.filter_In in Hx as [Hx Hcomp].
    split; [done |].
    pose proof (split_slash_no_slash s "" eq_refl) as Hall.
    by apply (proj1 (List.Forall_forall _ _) Hall).
Qed.

(** Splitting gives back a component that holds no separator. *)
Lemma split_slash_component x : forall acc s,
  no_slash x = true ->
  Path.split_slash acc (x +:+ s) = Path.split_slash (acc +:+ x) s.
Proof.
  induction x as [| c x IH]; intros acc s Hx.
  - by rewrite append_nil_l, append_nil_r.
  - simpl in Hx. apply andb_true_iff in Hx as [Hc Hx]. apply negb_true_iff in Hc.
    rewrite append_cons. simpl Path.split_slash at 1. rewrite Hc.
    rewrite IH by done. by rewrite append_assoc_char.
Qed.

Lemma split_slash_join parts :
  List.Forall (fun x => Path.is_component x = true /\ no_slash x = true) parts ->
  parts <> [] ->
  Path.split_slash "" (Path.join parts) = parts.
Proof.
  induction 1 as [| x parts [Hx1 Hx2] Hall IH]; intros Hne; [done |].
  destruct parts as [| y parts].
  - change (Path.join [x]) with x. rewrite <- (append_nil_r x) at 1.
    rewrite split_slash_component by done. by rewrite append_nil_l.
  - change (Path.join (x :: y :: parts)) with (x +:+ "/" +:+ Path.join (y :: parts)).
    rewrite split_slash_component by done. rewrite append_nil_l.
    change (Path.split_slash x ("/" +:+ Path.join (y :: parts)))
      with (x :: Path.split_slash "" (Path.join (y :: parts))).
    f_equal. by apply IH.
Qed.

Lemma filter_components parts :
  List.Forall (fun x => Path.is_component x = true /\ no_slash x = true) parts ->
  List.filter Path.is_component parts = parts.
Proof.
  induction 1 as [| x parts [Hx1 Hx2] Hall IH]; simpl; [done |].
  by rewrite Hx1, IH.
Qed.

Lemma leading_slashes_join parts :
  List.Forall (fun x => Path.is_component x = true /\ no_slash x = true) parts ->
  Path.leading_slashes (Path.join parts) = 0.
Proof.
  intros Hall. destruct Hall as [| x parts [Hx1 Hx2] Hall]; [done |].
  assert (Hhead : exists c x', x = String c x' /\ Ascii.eqb c "/" = false).
  { destruct x as [| c x']; [done |]. simpl in Hx2.
    apply andb_true_iff in Hx2 as [Hc _]. apply negb_true_iff in Hc. eauto. }
  destruct Hhead as (c & x' & -> & Hc).
  destruct parts.
  - simpl. by rewrite Hc.
  - change (Path.join (String c x' :: s :: parts))
      with (String c (x' +:+ "/" +:+ Path.join (s :: parts))).
    simpl. by rewrite Hc.
Qed.

(** Parsing the string of a path in normal form gives the path back: the
    normal form is a fixed point of [Path(str(p))]. *)
Lemma of_string_to_string p :
  normal_path p -> Path.of_string (Path.to_string p) = p.
Proof.
  destruct p as [root parts]. intros [Hroot Hparts]; simpl in *.
  unfold Path.to_string; simpl.
  destruct parts as [| x parts].
  - destruct Hroot as [-> | [-> | ->]]; reflexivity.
  - pose proof (split_slash_join (x :: parts) Hparts ltac:(done)) as Hsplit.
    pose proof (leading_slashes_join (x :: parts) Hparts) as Hlead.
    pose proof (filter_components (x :: parts) Hparts) as Hfilter.
    unfold Path.of_string.
    destruct Hroot as [-> | [-> | ->]].
    + change ("" +:+ Path.join (x :: parts)) with (Path.join (x :: parts)).
      by rewrite Hlead, Hsplit, Hfilter.
    + change (Path.leading_slashes ("/" +:+ Path.join (x :: parts)))
        with (S (Path.leading_slashes (Path.join (x :: parts)))).
      change (Path.split_slash "" ("/" +:+ Path.join (x :: parts)))
        with ("" :: Path.split_slash "" (Path.join (x :: parts))).
      rewrite Hlead, Hsplit.
      change (List.filter Path.is_component ("" :: x :: parts))
        with (List.filter Path.is_component (x :: parts)).
      by rewrite Hfilter.
    + change (Path.leading_slashes ("//" +:+ Path.join (x :: parts)))
        with (S (S (Path.leading_slashes (Path.join (x :: parts))))).
      change (Path.split_slash "" ("//" +:+ Path.join (x :: parts)))
        with ("" :: "" :: Path.split_slash "" (Path.join (x :: parts))).
      rewrite Hlead, Hsplit.
      change (List.filter Path.is_component ("" :: "" :: x :: parts))
        with (List.filter Path.is_component (x :: parts)).
      by rewrite Hfilter.
Qed.

(** ** The request processor, branch by branch *)

Section RequestExtras.

Variable env : Env.

(** A request is the [mkdir], the [try] block and, if that raises, the
    handlers. *)
Lemma process_ok text voice_id custom_voice_path output_path w d w2 :
  synthesize env text voice_id custom_voice_path (Path.of_string output_path)
    (request_start output_path w) = (Ok d, w2) ->
  process_tts_request env text voice_id custom_voice_path output_path w = (Ok d, w2).
Proof.
  intros Hs. unfold process_tts_request.
  rewrite (bind_ok _ _ w tt (request_start output_path w)) by reflexivity.
  unfold try_except. by rewrite Hs.
Qed.

Lemma process_raises text voice_id custom_voice_path output_path w ex w2 :
  synthesize env text voice_id custom_voice_path (Path.of_string output_path)
    (request_start output_path w) = (Raise ex, w2) ->
  process_tts_request env text voice_id custom_voice_path output_path w
  = handler env text voice_id custom_voice_path (Path.of_string output_path) ex w2.
Proof.
  intros Hs. unfold process_tts_request.
  rewrite (bind_ok _ _ w tt (request_start output_path w)) by reflexivity.
  unfold try_except. by rewrite Hs.
Qed.

(** The [try] block when the integration is available. *)
Lemma synthesize_available text voice_id custom_voice_path out w :
  SPARK_TTS_AVAILABLE env = true ->
  synthesize env text voice_id custom_voice_path out w
  = (do tts_engine <- get_tts env voice_id;
     finish_request env text voice_id custom_voice_path out tts_engine) w.
Proof.
  intros Hav. rewrite synthesize_parts.
  rewrite (bind_ok _ _ w tt w); [done |]. by rewrite Hav.
Qed.

(** The call of the engine: the custom voice path is checked, then the
    engine is called once, in the mode the path decides. *)
Lemma obtain_wav_calls text custom_voice_path e w :
  (truthy_str custom_voice_path = true ->
   path_exists (os w) (Path.of_string (py_str custom_voice_path)) = true) ->
  obtain_wav env text custom_voice_path e w
  = match inference env e (request_args text custom_voice_path) with
    | inl ex => (Raise ex, with_os (log (EInference e (request_args text custom_voice_path))) w)
    | inr wav => (Ok wav, with_os (log (EInference e (request_args text custom_voice_path))) w)
    end.
Proof.
  intros Hpath. unfold obtain_wav, request_args.
  destruct (truthy_str custom_voice_path).
  - rewrite (bind_ok _ _ w true w) by (unfold gets; by rewrite Hpath).
    rewrite (bind_ok _ _ w tt w) by reflexivity.
    unfold call_inference.
    rewrite (bind_ok _ _ w tt _) by reflexivity.
    by destruct (inference env e _).
  - unfold call_inference.
    rewrite (bind_ok _ _ w tt _) by reflexivity.
    by destruct (inference env e _).
Qed.

(** What [sf.write] leaves is what [exists()] then looks for. *)
Lemma store_audio_exists s wav rate o :
  path_exists (store_audio (Path.to_string (Path.of_string s)) wav rate o)
    (Path.of_string s) = true /\
  files (store_audio (Path.to_string (Path.of_string s)) wav rate o)
    !! Path.to_string (Path.of_string s) = Some (File (Audio wav rate)).
Proof.
  assert (Hk : files (store_audio (Path.to_string (Path.of_string s)) wav rate o)
               !! Path.to_string (Path.of_string s) = Some (File (Audio wav rate))).
  { unfold store_audio. cbn [files].
    rewrite (of_string_to_string _ (of_string_normal s)). apply lookup_insert_eq. }
  split; [| exact Hk].
  unfold path_exists. destruct (Path.parts (Path.of_string s)); [done |].
  apply bool_decide_eq_true_2. rewrite Hk. by eexists.
Qed.

(** The rest of the [try] block when everything after engine resolution
    goes well. *)
Lemma finish_request_succeeds text voice_id custom_voice_path output_path e w2 wav :
  (truthy_str custom_voice_path = true ->
   path_exists (os w2) (Path.of_string (py_str custom_voice_path)) = true) ->
  inference env e (request_args text custom_voice_path) = inr wav ->
  soundfile_import env = None ->
  sf_write env (Path.to_string (Path.of_string output_path)) wav 16000 = inr true ->
  let out := Path.of_string output_path in
  let w' :=
    with_os (fun o =>
      store_audio (Path.to_string out) wav 16000
        (log (ESfWrite (Path.to_string out))
           (log (EInference e (request_args text custom_voice_path)) o))) w2 in
  finish_request env text voice_id custom_voice_path out e w2
  = (Ok (success_report env voice_id out (voice_config w2)), w') /\
  files (os w') !! Path.to_string out = Some (File (Audio wav 16000)).
Proof.
  intros Hpath Hinf Himp Hwrite out w'.
  destruct (store_audio_exists output_path wav 16000
              (log (ESfWrite (Path.to_string out))
                 (log (EInference e (request_args text custom_voice_path)) (os w2))))
    as [Hex Hfile].
  split; [| exact Hfile].
  unfold finish_request.
  rewrite (bind_ok _ _ w2 wav
             (with_os (log (EInference e (request_args text custom_voice_path))) w2)).
  2: { rewrite obtain_wav_calls by done. by rewrite Hinf. }
  rewrite (bind_ok _ _ _ tt w').
  2: { unfold soundfile_write. rewrite Himp.
       rewrite (bind_ok _ _ _ tt _) by reflexivity.
       unfold out. rewrite Hwrite. reflexivity. }
  rewrite (bind_ok _ _ w' true w') by (unfold gets; by rewrite <- Hex).
  rewrite (bind_ok _ _ w' tt w') by reflexivity.
  rewrite (bind_ok _ _ w' (voice_config w2) w') by reflexivity.
  reflexivity.
Qed.

(** Engine resolution leaves the files and the registry as they are. *)
Lemma get_tts_frame voice_id w r w2 :
  get_tts env voice_id w = (r, w2) ->
  files (os w2) = files (os w) /\ voice_config w2 = voice_config w.
Proof.
  intros Hg. destruct (get_tts_step env voice_id w) as [key Hstep].
  pose proof (cache_step_files _ _ _ Hstep) as Hfiles.
  pose proof (cache_step_registry _ _ _ Hstep) as Hreg.
  rewrite Hg in Hfiles, Hreg. done.
Qed.

(** X13. A request that goes well. Let the integration be available, let
    engine resolution return an engine, let the custom voice path, if one
    is given, exist, and let the inference, the import of [soundfile] and
    its [write] succeed. Then the engine is called once, in cloning mode
    with the fixed transcript if a custom voice path is given and with the
    fixed male, moderate, moderate controls otherwise; the samples are
    written to the output path at 16000 Hz; and the result reports success,
    the output path, the device, and the id and display name of the voice
    if the voice id is not empty and registered. *)
Theorem successful_request text voice_id custom_voice_path output_path w e w2 wav :
  SPARK_TTS_AVAILABLE env = true ->
  get_tts env voice_id (request_start output_path w) = (Ok e, w2) ->
  (truthy_str custom_voice_path = true ->
   path_exists (os (request_start output_path w))
     (Path.of_string (py_str custom_voice_path)) = true) ->
  inference env e (request_args text custom_voice_path) = inr wav ->
  soundfile_import env = None ->
  sf_write env (Path.to_string (Path.of_string output_path)) wav 16000 = inr true ->
  let out := Path.of_string output_path in
  let w' :=
    with_os (fun o =>
      store_audio (Path.to_string out) wav 16000
        (log (ESfWrite (Path.to_string out))
           (log (EInference e (request_args text custom_voice_path)) o))) w2 in
  process_tts_request env text voice_id custom_voice_path output_path w
  = (Ok (success_report env voice_id out (voice_config w)), w') /\
  files (os w') !! Path.to_string out = Some (File (Audio wav 16000)).
Proof.
  intros Hav Hg Hpath Hinf Himp Hwrite out w'.
  destruct (get_tts_frame _ _ _ _ Hg) as [Hfiles Hreg].
  assert (Hpath2 : truthy_str custom_voice_path = true ->
                   path_exists (os w2) (Path.of_string (py_str custom_voice_path)) = true).
  { intros Ht. specialize (Hpath Ht). unfold path_exists in *. by rewrite Hfiles. }
  destruct (finish_request_succeeds text voice_id custom_voice_path output_path
              e w2 wav Hpath2 Hinf Himp Hwrite) as [Hfin Hfile].
  split; [| exact Hfile].
  apply process_ok. rewrite synthesize_available by done.
  rewrite (bind_ok _ _ _ e w2 Hg). rewrite Hfin. by rewrite Hreg.
Qed.

(** X14. An unknown voice id is no error. With the integration available
    and the default engine in the cache, a request for a voice id that is
    not registered, without custom voice path, is served by the default
    engine: that is the engine the inference is called on, nothing is
    constructed, and the result reports success with an empty [voice]
    entry. *)
Theorem unknown_voice_served_by_default text voice_id output_path w e_d wav :
  SPARK_TTS_AVAILABLE env = true ->
  unregistered voice_id w ->
  tts_models w !! "default" = Some e_d ->
  inference env e_d (Parametric text "male" "moderate" "moderate") = inr wav ->
  soundfile_import env = None ->
  sf_write env (Path.to_string (Path.of_string output_path)) wav 16000 = inr true ->
  let out := Path.of_string output_path in
  let rw := process_tts_request env text voice_id None output_path w in
  rw.1 = Ok [("success", JBool true);
             ("file", JStr (Path.to_string out));
             ("message", JStr ("Audio generated successfully using "
                               +:+ (if CUDA_AVAILABLE env then CUDA_DEVICE env else "CPU")));
             ("voice", JObj [])] /\
  effects (os rw.2)
  = (effects (os w)
     ++ [EMkdir (Path.to_string (Path.parent out));
         EGetTts voice_id;
         EInference e_d (Parametric text "male" "moderate" "moderate");
         ESfWrite (Path.to_string out)])%list /\
  constructions rw.2 = constructions w.
Proof.
  intros Hav Hu Hd Hinf Himp Hwrite out rw.
  set (w2 := with_os (log (EGetTts voice_id)) (request_start output_path w)).
  assert (Hg : get_tts env voice_id (request_start output_path w) = (Ok e_d, w2)).
  { rewrite get_tts_unregistered by done. by apply default_tts_cached. }
  destruct (finish_request_succeeds text voice_id None output_path e_d w2 wav
              ltac:(done) Hinf Himp Hwrite) as [Hfin _].
  assert (Hres : rw = (Ok (success_report env voice_id out (voice_config w)),
                       with_os (fun o =>
                         store_audio (Path.to_string out) wav 16000
                           (log (ESfWrite (Path.to_string out))
                              (log (EInference e_d (request_args text None)) o))) w2)).
  { apply process_ok. rewrite synthesize_available by done.
    rewrite (bind_ok _ _ _ e_d w2 Hg). exact Hfin. }
  rewrite Hres. split; [| split].
  - simpl. unfold success_report, voice_info. do 5 f_equal.
    destruct voice_id as [v |]; [| done]. simpl in *.
    destruct (negb (String.eqb v "")); [| done]. by rewrite Hu.
  - simpl. by rewrite <- !app_assoc.
  - reflexivity.
Qed.

End RequestExtras.

Section RequestFailures.

Variable env : Env.

Lemma request_fails text voice_id custom_voice_path output_path w ex w2 :
  synthesize env text voice_id custom_voice_path (Path.of_string output_path)
    (request_start output_path w) = (Raise ex, w2) ->
  is_import_error ex = false ->
  process_tts_request env text voice_id custom_voice_path output_path w
  = (Ok (failure_report env ex),
     with_os (write_file (Path.of_string ERROR_LOG_PATH)
                (error_log env text voice_id custom_voice_path
                   (Path.of_string output_path) ex)) w2).
Proof.
  intros Hs Hcls. rewrite (process_raises env _ _ _ _ _ _ _ Hs).
  unfold handler. rewrite Hcls. unfold failure_report, failure_prefix.
  by destruct (is_file_not_found ex).
Qed.



Lemma synthesize_finish text voice_id custom_voice_path out w e w2 :
  SPARK_TTS_AVAILABLE env = true ->
  get_tts env voice_id w = (Ok e, w2) ->
  synthesize env text voice_id custom_voice_path out w
  = finish_request env text voice_id custom_voice_path out e w2.
Proof.
  intros Hav Hg. rewrite synthesize_available by done. by apply bind_ok.
Qed.




(** X18. A failed inference is reported with its cause and logged. With
    the integration available and the engine resolved, if the call of the
    engine raises an exception that is no import error, the request
    returns a failure with [file] null whose message is the text of the
    exception after "File not found: " for a [FileNotFoundError] and after
    "Error generating audio: " otherwise; nothing is written to the output
    path, and the log file then holds the record of this request, whatever
    it held before. *)
Theorem failed_inference_reported text voice_id custom_voice_path output_path
    w e w2 ex :
  SPARK_TTS_AVAILABLE env = true ->
  get_tts env voice_id (request_start output_path w) = (Ok e, w2) ->
  (truthy_str custom_voice_path = true ->
   path_exists (os (request_start output_path w))
     (Path.of_string (py_str custom_voice_path)) = true) ->
  inference env e (request_args text custom_voice_path) = inl ex ->
  is_import_error ex = false ->
  let out := Path.of_string output_path in
  let record := error_log env text voice_id custom_voice_path out ex in
  let rw := process_tts_request env text voice_id custom_voice_path output_path w in
  rw.1 = Ok [("success", JBool false);
             ("message", JStr (failure_prefix ex +:+ exn_msg ex));
             ("file", JNull);
             ("trace", JStr (truncate_trace (format_exc env ex)));
             ("log_file", JStr "tts_error.log")] /\
  files (os rw.2)
  = <["tts_error.log" := File record]> (files (os (request_start output_path w))) /\
  record = Text ["Error processing text: " +:+ py_str text;
                 "Voice ID: " +:+ py_str voice_id;
                 "Custom voice path: " +:+ py_str custom_voice_path;
                 "Output path: " +:+ Path.to_string out;
                 "Exception: " +:+ exn_msg ex;
                 "Traceback:"; format_exc env ex].
Proof.
  intros Hav Hg Hpath Hinf Hcls out record rw.
  destruct (get_tts_frame env _ _ _ _ Hg) as [Hfiles _].
  assert (Hs : synthesize env text voice_id custom_voice_path out
                 (request_start output_path w)
               = (Raise ex,
                  with_os (log (EInference e (request_args text custom_voice_path))) w2)).
  { rewrite (synthesize_finish _ _ _ _ _ _ _ Hav Hg). unfold finish_request.
    apply bind_raise. rewrite obtain_wav_calls.
    - by rewrite Hinf.
    - intros Ht. specialize (Hpath Ht). unfold path_exists in *. by rewrite Hfiles. }
  unfold rw. rewrite (request_fails _ _ _ _ _ _ _ Hs Hcls).
  split; [done | split; [| done]].
  simpl. by rewrite Hfiles.
Qed.

(** X19. The check after writing. With the integration available and the
    engine resolved and called with success, if [soundfile] returns
    without leaving a file and the output path does not exist, the request
    does not report success: it fails with "File not found: Output file
    was not created: ..." and [file] null. *)
Theorem output_not_created_reported text voice_id custom_voice_path output_path
    w e w2 wav :
  SPARK_TTS_AVAILABLE env = true ->
  get_tts env voice_id (request_start output_path w) = (Ok e, w2) ->
  (truthy_str custom_voice_path = true ->
   path_exists (os (request_start output_path w))
     (Path.of_string (py_str custom_voice_path)) = true) ->
  inference env e (request_args text custom_voice_path) = inr wav ->
  soundfile_import env = None ->
  sf_write env (Path.to_string (Path.of_string output_path)) wav 16000 = inr false ->
  path_exists (os (request_start output_path w)) (Path.of_string output_path) = false ->
  let out := Path.of_string output_path in
  (process_tts_request env text voice_id custom_voice_path output_path w).1
  = Ok [("success", JBool false);
        ("message", JStr ("File not found: Output file was not created: "
                          +:+ Path.to_string out));
        ("file", JNull);
        ("trace",
         JStr (truncate_trace
                 (format_exc env
                    (Exn FileNotFoundError
                       ("Output file was not created: " +:+ Path.to_string out)))));
        ("log_file", JStr "tts_error.log")].
Proof.
  intros Hav Hg Hpath Hinf Himp Hwrite Hnone out.
  destruct (get_tts_frame env _ _ _ _ Hg) as [Hfiles _].
  set (w3 := with_os (fun o => log (ESfWrite (Path.to_string out))
                                 (log (EInference e (request_args text custom_voice_path)) o))
               w2).
  assert (Hs : synthesize env text voice_id custom_voice_path out
                 (request_start output_path w)
               = (Raise (Exn FileNotFoundError
                           ("Output file was not created: " +:+ Path.to_string out)), w3)).
  { rewrite (synthesize_finish _ _ _ _ _ _ _ Hav Hg). unfold finish_request.
    rewrite (bind_ok _ _ w2 wav
               (with_os (log (EInference e (request_args text custom_voice_path))) w2)).
    2: { rewrite obtain_wav_calls.
         - by rewrite Hinf.
         - intros Ht. specialize (Hpath Ht). unfold path_exists in *.
           by rewrite Hfiles. }
    rewrite (bind_ok _ _ _ tt w3).
    2: { unfold soundfile_write. rewrite Himp.
         rewrite (bind_ok _ _ _ tt _) by reflexivity.
         unfold out. rewrite Hwrite. reflexivity. }
    rewrite (bind_ok _ _ w3 false w3).
    2: { unfold gets. do 2 f_equal. unfold path_exists in *. simpl.
         by rewrite Hfiles. }
    reflexivity. }
  by rewrite (request_fails _ _ _ _ _ _ _ Hs eq_refl).
Qed.

End RequestFailures.

(** ** The shape of every result *)

Section RequestShape.

Variable env : Env.



End RequestShape.

(** ** The trace of a failure *)

Lemma length_append s1 s2 :
  String.length (s1 +:+ s2) = String.length s1 + String.length s2.
Proof.
  induction s1 as [| a s1 IH]; [done |]. rewrite append_cons. simpl. by rewrite IH.
Qed.

Lemma length_substring n : forall s,
  String.length (String.substring 0 n s) = Nat.min n (String.length s).
Proof.
  induction n as [| n IH]; intros s.
  - by destruct s.
  - destruct s as [| a s]; [done |]. simpl. by rewrite IH.
Qed.

(** X21. The trace of a failure is bounded. The [trace] of a failure
    report is the formatted traceback itself when that has at most 200
    characters, and otherwise its first 200 characters followed by three
    dots: never more than 203 characters. *)
Theorem failure_trace_bounded env ex :
  let t := format_exc env ex in
  dict_get "trace" (failure_report env ex) = Some (JStr (truncate_trace t)) /\
  String.length (truncate_trace t) <= 203 /\
  (String.length t <= 200 -> truncate_trace t = t) /\
  (200 < String.length t ->
   truncate_trace t = String.substring 0 200 t +:+ "..." /\
   String.length (truncate_trace t) = 203).
Proof.
  intros t. split; [done |]. unfold truncate_trace.
  destruct (Nat.ltb 200 (String.length t)) eqn:Hlen.
  - apply Nat.ltb_lt in Hlen.
    assert (Hl : String.length (String.substring 0 200 t +:+ "...") = 203).
    { rewrite length_append, length_substring. simpl String.length at 2. lia. }
    split; [lia | split; [lia | done]].
  - apply Nat.ltb_ge in Hlen. split; [lia | split; [done | lia]].
Qed.

(** ** The listing *)

Section Listing.

Variable env : Env.

(** The listing, key by key. *)
Lemma list_voices_lookup w :
  exists m,
    list_voices env w = (Ok m, w) /\
    forall k, m !! k
              = match VoiceConfig.voices (voice_config w) !! k with
                | Some details => Some (voice_entry w k details)
                | None => if decide (k = "default")
                          then Some (default_entry env w) else None
                end.
Proof.
  set (result := map_imap (fun voice_id details =>
                   Some (JObj [("display_name", JStr (display_name details));
                               ("model_dir", JStr (model_dir details));
                               ("loaded", JBool (bool_decide
                                                   (is_Some (tts_models w !! voice_id))));
                               ("valid", JBool (os_path_exists (os w) (model_dir details)))]))
                   (VoiceConfig.list_voices (voice_config w))).
  assert (Hres : forall k, result !! k
                           = voice_entry w k <$> VoiceConfig.voices (voice_config w) !! k).
  { intros k. unfold result, VoiceConfig.list_voices. rewrite map_lookup_imap.
    destruct (VoiceConfig.voices (voice_config w) !! k) eqn:Hk; [| done].
    simpl. unfold voice_entry, VoiceConfig.validate_voice, VoiceConfig.get_voice.
    by rewrite Hk. }
  set (m := if bool_decide (is_Some (result !! "default")) then result
            else <["default" := default_entry env w]> result).
  assert (Hlist : list_voices env w = (Ok m, w)) by reflexivity.
  assert (Hm : forall k, m !! k
                         = match VoiceConfig.voices (voice_config w) !! k with
                           | Some details => Some (voice_entry w k details)
                           | None => if decide (k = "default")
                                     then Some (default_entry env w) else None
                           end).
  { intros k. unfold m. case_bool_decide as Hd.
    - rewrite Hres. destruct (VoiceConfig.voices (voice_config w) !! k) eqn:Hk; [done |].
      simpl. case_decide as Hkd; [| done]. subst k.
      rewrite Hres, Hk in Hd. by destruct Hd.
    - rewrite lookup_insert. case_decide as Hkd.
      + subst k. rewrite Hres in Hd.
        destruct (VoiceConfig.voices (voice_config w) !! "default") eqn:Hk.
        * exfalso. apply Hd. by eexists.
        * by rewrite decide_True.
      + rewrite Hres. destruct (VoiceConfig.voices (voice_config w) !! k); [done |].
        simpl. by rewrite decide_False. }
  by exists m.
Qed.

(** X22. What the listing holds. [list_voices] changes nothing. Its keys
    are the registered ids and ["default"]. The entry of a registered id
    gives its display name and model directory, whether the cache holds an
    engine under that id, and the answer of [validate_voice]; this also
    holds for a voice registered under ["default"], which takes the place
    of the synthetic entry. Without such a voice the entry ["default"]
    describes the built-in model. [handle_list_voices] and the entry point
    with action [list_voices] wrap that listing with [success] true. *)
Theorem listing_contents w args :
  exists m,
    list_voices env w = (Ok m, w) /\
    (forall k, is_Some (m !! k) <->
               k = "default" \/ is_Some (VoiceConfig.voices (voice_config w) !! k)) /\
    (forall voice_id details,
       VoiceConfig.voices (voice_config w) !! voice_id = Some details ->
       m !! voice_id = Some (voice_entry w voice_id details)) /\
    (VoiceConfig.voices (voice_config w) !! "default" = None ->
     m !! "default" = Some (default_entry env w)) /\
    handle_list_voices env w
    = (Ok [("success", JBool true); ("voices", JObj (map_to_list m))], w) /\
    (action args = ActListVoices ->
     main env args w
     = (Ok [("success", JBool true); ("voices", JObj (map_to_list m))], w)).
Proof.
  destruct (list_voices_lookup w) as (m & Hlist & Hm).
  exists m. split; [exact Hlist | split; [| split; [| split; [| split]]]].
  - intros k. rewrite Hm.
    destruct (VoiceConfig.voices (voice_config w) !! k) eqn:Hk.
    + split; [intros _; right; by eexists | intros _; by eexists].
    + case_decide as Hkd.
      * split; [by left | intros _; by eexists].
      * split; [by intros [? ?] | intros [? | [? ?]]; done].
  - intros voice_id details Hv. by rewrite Hm, Hv.
  - intros Hnone. rewrite Hm, Hnone. by rewrite decide_True.
  - unfold handle_list_voices, try_except.
    rewrite (bind_ok _ _ w m w Hlist). reflexivity.
  - intros Hact. unfold main, try_except at 1. rewrite Hact.
    unfold handle_list_voices, try_except.
    rewrite (bind_ok _ _ w m w Hlist). reflexivity.
Qed.

(** Under ["default"] and under every registered id the listing has an
    entry, whose [loaded] flag tells whether the cache has that key. *)
Lemma listing_entry_of_key w k :
  k = "default" \/ is_Some (VoiceConfig.voices (voice_config w) !! k) ->
  exists m entry,
    list_voices env w = (Ok m, w) /\
    m !! k = Some entry /\
    loaded_flag entry = Some (JBool (bool_decide (is_Some (tts_models w !! k)))).
Proof.
  intros Hk. destruct (list_voices_lookup w) as (m & Hlist & Hm).
  exists m. specialize (Hm k).
  destruct (VoiceConfig.voices (voice_config w) !! k) as [details |] eqn:Hv.
  - eexists. split; [exact Hlist | split; [exact Hm | done]].
  - destruct Hk as [-> | [? ?]]; [| done].
    rewrite decide_True in Hm by done.
    eexists. split; [exact Hlist | split; [exact Hm | done]].
Qed.

(** X23. The listing shows what [get_tts] has loaded. After a call of
    [get_tts] that returns an engine, the listing has an entry under the
    cache key of that call, and its [loaded] flag is true. *)
Theorem listing_shows_loaded_engine voice_id w e w' :
  get_tts env voice_id w = (Ok e, w') ->
  exists m entry,
    list_voices env w' = (Ok m, w') /\
    m !! cache_key voice_id w = Some entry /\
    loaded_flag entry = Some (JBool true).
Proof.
  intros Hg.
  assert (Hc : tts_models w' !! cache_key voice_id w = Some e).
  { eapply cache_step_returns. rewrite <- Hg. apply get_tts_step_key. }
  assert (Hreg : voice_config w' = voice_config w).
  { pose proof (cache_step_registry _ _ _ (get_tts_step_key env voice_id w)) as H.
    by rewrite Hg in H. }
  destruct (listing_entry_of_key w' (cache_key voice_id w)) as (m & entry & Hl & Hm & Hf).
  - destruct (cache_key_cases voice_id w) as [[_ ->] | (v & voice & _ & -> & Hv)].
    + by left.
    + right. rewrite Hreg. by eexists.
  - exists m, entry. split; [exact Hl | split; [exact Hm |]].
    rewrite Hf. do 2 f_equal. apply bool_decide_eq_true_2. by eexists.
Qed.

End Listing.

(** ** The download script *)

Lemma say_keeps s r :
  files (DownloadModel.run_os (DownloadModel.say s r)) = files (DownloadModel.run_os r) /\
  DownloadModel.downloads (DownloadModel.say s r) = DownloadModel.downloads r.
Proof. done. Qed.



(** ** The further properties on the sample installations *)


(** X2, witness. *)
Lemma add_voice_upsert_witness :
  (VoiceConfig.add_voice "bob" "/voices/bob" "Bob"
     (VoiceConfig.add_voice "bob" "/voices/bob" "Bob" demo_config demo_os).1
     (VoiceConfig.add_voice "bob" "/voices/bob" "Bob" demo_config demo_os).2).1
  = (VoiceConfig.add_voice "bob" "/voices/bob" "Bob" demo_config demo_os).1 /\
  VoiceConfig.get_voice "alice"
    (VoiceConfig.add_voice "bob" "/voices/bob" "Bob" demo_config demo_os).1
  = VoiceConfig.get_voice "alice" demo_config.
Proof.
  pose proof (add_voice_upsert "bob" "/voices/bob" "Bob" "/voices/bob" "Bob"
                demo_config demo_os) as H.
  cbv zeta in H. destruct H as (_ & Hother & Hsame).
  split.
  - exact (proj1 (Hsame eq_refl eq_refl)).
  - apply Hother. discriminate.
Defined.




(** X6, witness. *)
Lemma remove_command_reports_witness :
  VoiceConfig.init "/app/python" demo_os = inr demo_config /\
  ManageVoices.main "/app/python" (ManageVoices.Remove "ghost") demo_os
  = inr (print "Voice 'ghost' not found" demo_os) /\
  exists o' c',
    ManageVoices.main "/app/python" (ManageVoices.Remove "alice") demo_os
    = inr (print "Voice 'alice' removed successfully" o') /\
    VoiceConfig.init "/app/python" o' = inr c' /\
    VoiceConfig.get_voice "alice" c' = None.
Proof.
  assert (H : VoiceConfig.init "/app/python" demo_os = inr demo_config)
    by (vm_compute; reflexivity).
  split; [exact H | split].
  - apply (proj1 (remove_command_reports "/app/python" "ghost" demo_os demo_config H)).
    reflexivity.
  - apply (proj2 (remove_command_reports "/app/python" "alice" demo_os demo_config H)).
    exists (mkVoice "/voices/alt" "Alice"). reflexivity.
Defined.


(** X8, witness: the voice ["gone"], whose model directory does not exist,
    and the voice ["alice"], whose directory does. *)
Lemma validate_voice_foretells_get_tts_witness :
  tts_models stale_world !! "gone" = None /\
  VoiceConfig.validate_voice "gone" (voice_config stale_world) (os stale_world) = false /\
  (get_tts demo_env (Some "gone") stale_world).1
  = Raise (Exn FileNotFoundError
             "Model directory for voice 'gone' not found: /voices/gone") /\
  VoiceConfig.validate_voice "alice" (voice_config stale_world) (os stale_world) = true /\
  effects (os (get_tts demo_env (Some "alice") stale_world).2)
  = (effects (os stale_world)
     ++ [EGetTts (Some "alice"); ESparkTTS "/voices/alt" Cpu])%list.
Proof.
  assert (Hc : tts_models stale_world !! "gone" = None) by reflexivity.
  assert (Hf : VoiceConfig.validate_voice "gone" (voice_config stale_world)
                 (os stale_world) = false) by (vm_compute; reflexivity).
  assert (Ht : VoiceConfig.validate_voice "alice" (voice_config stale_world)
                 (os stale_world) = true) by (vm_compute; reflexivity).
  split; [exact Hc | split; [exact Hf | split; [| split; [exact Ht |]]]].
  - rewrite (proj1 (proj2 (validate_voice_foretells_get_tts demo_env "gone"
                             stale_world Hc)
                      (mkVoice "/voices/gone" "Gone") ltac:(vm_compute; reflexivity))
               Hf).
    reflexivity.
  - exact (proj2 (proj2 (validate_voice_foretells_get_tts demo_env "alice"
                           stale_world ltac:(reflexivity))
                    (mkVoice "/voices/alt" "Alice") ltac:(vm_compute; reflexivity))
             Ht).
Defined.

(** X9, witness: the voice ["alice"] keeps its engine when its entry is
    overwritten with another model directory. *)
Lemma registered_voice_loaded_once_witness :
  VoiceConfig.get_voice "alice" (voice_config demo_world)
  = Some (mkVoice "/voices/alt" "Alice") /\
  (get_tts demo_env (Some "alice") demo_world).1
  = Ok (mkEngine 0 "/voices/alt" Cpu) /\
  VoiceConfig.get_voice "alice"
    (voice_config
       (run_ops demo_env [OpAddVoice "alice" "/voices/broken" "Alice 2"]
          (get_tts demo_env (Some "alice") demo_world).2))
  = Some (mkVoice "/voices/broken" "Alice 2") /\
  (get_tts demo_env (Some "alice")
     (run_ops demo_env [OpAddVoice "alice" "/voices/broken" "Alice 2"]
        (get_tts demo_env (Some "alice") demo_world).2)).1
  = Ok (mkEngine 0 "/voices/alt" Cpu).
Proof.
  assert (Hv : VoiceConfig.get_voice "alice" (voice_config demo_world)
               = Some (mkVoice "/voices/alt" "Alice")) by reflexivity.
  pose proof (registered_voice_loaded_once demo_env "alice"
                (mkVoice "/voices/alt" "Alice") demo_world Hv
                ltac:(reflexivity) ltac:(vm_compute; reflexivity) ltac:(reflexivity))
    as H.
  cbv zeta in H. destruct H as [Hfirst Hlater].
  split; [exact Hv | split; [| split]].
  - rewrite Hfirst. reflexivity.
  - vm_compute. reflexivity.
  - rewrite Hfirst. cbn [snd].
    rewrite (Hlater [OpAddVoice "alice" "/voices/broken" "Alice 2"]).
    + reflexivity.
    + exists (mkVoice "/voices/broken" "Alice 2"). vm_compute. reflexivity.
Defined.

(** X10, witness: the engines of ["alice"] and of the default differ, and a
    second call for ["alice"] returns the first object. *)
Lemma engine_identity_follows_key_witness :
  reachable demo_env demo_world /\
  (get_tts demo_env (Some "alice") demo_world).1 = Ok (mkEngine 0 "/voices/alt" Cpu) /\
  (get_tts demo_env None (get_tts demo_env (Some "alice") demo_world).2).1
  = Ok (mkEngine 1 "/app/pretrained_models/Spark-TTS-0.5B" Cpu) /\
  mkEngine 1 "/app/pretrained_models/Spark-TTS-0.5B" Cpu <> mkEngine 0 "/voices/alt" Cpu.
Proof.
  assert (Hr : reachable demo_env demo_world).
  { apply (reach_init demo_env "/app/python" demo_os). vm_compute. reflexivity. }
  assert (Hg1 : get_tts demo_env (Some "alice") demo_world
                = (Ok (mkEngine 0 "/voices/alt" Cpu),
                   (get_tts demo_env (Some "alice") demo_world).2))
    by (vm_compute; reflexivity).
  assert (Hg2 : get_tts demo_env None
                  (run_ops demo_env [] (get_tts demo_env (Some "alice") demo_world).2)
                = (Ok (mkEngine 1 "/app/pretrained_models/Spark-TTS-0.5B" Cpu),
                   (get_tts demo_env None
                      (get_tts demo_env (Some "alice") demo_world).2).2))
    by (vm_compute; reflexivity).
  split; [exact Hr | split; [| split]].
  - rewrite Hg1. reflexivity.
  - vm_compute. reflexivity.
  - apply (proj2 (engine_identity_follows_key demo_env (Some "alice") None []
                    demo_world _ _ _ _ Hr Hg1 Hg2)).
    vm_compute. discriminate.
Defined.

(** X11, witness. *)
Lemma cached_engines_on_process_device_witness :
  reachable demo_env (run_op demo_env (OpGetTts (Some "alice")) demo_world) /\
  tts_models (run_op demo_env (OpGetTts (Some "alice")) demo_world) !! "alice"
  = Some (mkEngine 0 "/voices/alt" Cpu) /\
  eng_device (mkEngine 0 "/voices/alt" Cpu) = device demo_env.
Proof.
  assert (Hr : reachable demo_env
                 (run_op demo_env (OpGetTts (Some "alice")) demo_world)).
  { apply reach_op, (reach_init demo_env "/app/python" demo_os).
    vm_compute. reflexivity. }
  assert (Hc : tts_models (run_op demo_env (OpGetTts (Some "alice")) demo_world)
               !! "alice" = Some (mkEngine 0 "/voices/alt" Cpu))
    by (vm_compute; reflexivity).
  split; [exact Hr | split; [exact Hc |]].
  exact (proj1 (cached_engines_on_process_device demo_env _ "alice" _ Hr Hc)).
Defined.

(** X12, witness: with the default engine loaded, a request for an unknown
    voice constructs nothing. *)
Lemma request_constructs_at_most_one_witness :
  is_Some (tts_models (run_op demo_env (OpGetTts None) demo_world)
           !! cache_key (Some "ghost") (run_op demo_env (OpGetTts None) demo_world)) /\
  constructions
    (process_tts_request demo_env (Some "hello") (Some "ghost") None "out/a.wav"
       (run_op demo_env (OpGetTts None) demo_world)).2
  = constructions (run_op demo_env (OpGetTts None) demo_world).
Proof.
  assert (H : is_Some (tts_models (run_op demo_env (OpGetTts None) demo_world)
                       !! cache_key (Some "ghost")
                            (run_op demo_env (OpGetTts None) demo_world))).
  { exists (mkEngine 0 "/app/pretrained_models/Spark-TTS-0.5B" Cpu).
    vm_compute. reflexivity. }
  split; [exact H |].
  pose proof (request_constructs_at_most_one demo_env (Some "hello") (Some "ghost")
                None "out/a.wav" (run_op demo_env (OpGetTts None) demo_world)) as Hx.
  cbv zeta in Hx. exact (proj1 (proj2 Hx H)).
Defined.

(** X13, witness: a request for the voice ["alice"]. *)
Lemma successful_request_witness :
  SPARK_TTS_AVAILABLE demo_env = true /\
  (process_tts_request demo_env (Some "hello") (Some "alice") None "out/a.wav"
     demo_world).1
  = Ok [("success", JBool true);
        ("file", JStr "out/a.wav");
        ("message", JStr "Audio generated successfully using CPU");
        ("voice", JObj [("voice_id", JStr "alice"); ("voice_name", JStr "Alice")])] /\
  files (os (process_tts_request demo_env (Some "hello") (Some "alice") None
               "out/a.wav" demo_world).2) !! "out/a.wav"
  = Some (File (Audio [0%Z; 1%Z] 16000)).
Proof.
  assert (Hav : SPARK_TTS_AVAILABLE demo_env = true) by reflexivity.
  pose proof (successful_request demo_env (Some "hello") (Some "alice") None
                "out/a.wav" demo_world (mkEngine 0 "/voices/alt" Cpu)
                (get_tts demo_env (Some "alice") (request_start "out/a.wav" demo_world)).2
                [0%Z; 1%Z] Hav ltac:(vm_compute; reflexivity) ltac:(discriminate)
                ltac:(reflexivity) ltac:(reflexivity) ltac:(reflexivity)) as H.
  cbv zeta in H. destruct H as [Hres Hfile].
  split; [exact Hav | split].
  - rewrite Hres. reflexivity.
  - rewrite Hres. exact Hfile.
Defined.

(** X14, witness. *)
Lemma unknown_voice_served_by_default_witness :
  unregistered (Some "ghost") (run_op demo_env (OpGetTts None) demo_world) /\
  tts_models (run_op demo_env (OpGetTts None) demo_world) !! "default"
  = Some (mkEngine 0 "/app/pretrained_models/Spark-TTS-0.5B" Cpu) /\
  (process_tts_request demo_env (Some "hello") (Some "ghost") None "out/a.wav"
     (run_op demo_env (OpGetTts None) demo_world)).1
  = Ok [("success", JBool true);
        ("file", JStr "out/a.wav");
        ("message", JStr "Audio generated successfully using CPU");
        ("voice", JObj [])].
Proof.
  assert (Hu : unregistered (Some "ghost") (run_op demo_env (OpGetTts None) demo_world))
    by (vm_compute; reflexivity).
  assert (Hd : tts_models (run_op demo_env (OpGetTts None) demo_world) !! "default"
               = Some (mkEngine 0 "/app/pretrained_models/Spark-TTS-0.5B" Cpu))
    by (vm_compute; reflexivity).
  pose proof (unknown_voice_served_by_default demo_env (Some "hello") (Some "ghost")
                "out/a.wav" (run_op demo_env (OpGetTts None) demo_world)
                _ [0%Z; 1%Z] eq_refl Hu Hd eq_refl eq_refl eq_refl) as H.
  cbv zeta in H. destruct H as (Hres & _ & _).
  split; [exact Hu | split; [exact Hd |]].
  rewrite Hres. reflexivity.
Defined.




(** X18, witness: a request to an engine whose inference raises. *)
Lemma failed_inference_reported_witness :
  inference failing_inference_env
    (mkEngine 0 "/app/pretrained_models/Spark-TTS-0.5B" Cpu)
    (request_args (Some "hello") None)
  = inl (Exn RuntimeError "CUDA out of memory") /\
  (process_tts_request failing_inference_env (Some "hello") None None "out/a.wav"
     demo_world).1
  = Ok [("success", JBool false);
        ("message", JStr "Error generating audio: CUDA out of memory");
        ("file", JNull);
        ("trace", JStr "Traceback (most recent call last): CUDA out of memory");
        ("log_file", JStr "tts_error.log")] /\
  files (os (process_tts_request failing_inference_env (Some "hello") None None
               "out/a.wav" demo_world).2) !! "out/a.wav" = None.
Proof.
  assert (Hinf : inference failing_inference_env
                   (mkEngine 0 "/app/pretrained_models/Spark-TTS-0.5B" Cpu)
                   (request_args (Some "hello") None)
                 = inl (Exn RuntimeError "CUDA out of memory")) by reflexivity.
  pose proof (failed_inference_reported failing_inference_env (Some "hello") None
                None "out/a.wav" demo_world
                (mkEngine 0 "/app/pretrained_models/Spark-TTS-0.5B" Cpu)
                (get_tts failing_inference_env None
                   (request_start "out/a.wav" demo_world)).2
                _ eq_refl ltac:(vm_compute; reflexivity) ltac:(discriminate)
                Hinf eq_refl) as H.
  cbv zeta in H. destruct H as (Hres & Hfiles & _).
  split; [exact Hinf | split].
  - rewrite Hres. reflexivity.
  - rewrite Hfiles. vm_compute. reflexivity.
Defined.

(** X19, witness: a request with a [soundfile] that writes nothing. *)
Lemma output_not_created_reported_witness :
  sf_write silent_soundfile_env "out/a.wav" [0%Z; 1%Z] 16000 = inr false /\
  (process_tts_request silent_soundfile_env (Some "hello") None None "out/a.wav"
     demo_world).1
  = Ok [("success", JBool false);
        ("message", JStr "File not found: Output file was not created: out/a.wav");
        ("file", JNull);
        ("trace",
         JStr "Traceback (most recent call last): Output file was not created: out/a.wav");
        ("log_file", JStr "tts_error.log")].
Proof.
  assert (Hw : sf_write silent_soundfile_env "out/a.wav" [0%Z; 1%Z] 16000 = inr false)
    by reflexivity.
  split; [exact Hw |].
  pose proof (output_not_created_reported silent_soundfile_env (Some "hello") None
                None "out/a.wav" demo_world
                (mkEngine 0 "/app/pretrained_models/Spark-TTS-0.5B" Cpu)
                (get_tts silent_soundfile_env None
                   (request_start "out/a.wav" demo_world)).2
                [0%Z; 1%Z] eq_refl ltac:(vm_compute; reflexivity) ltac:(discriminate)
                eq_refl eq_refl Hw ltac:(vm_compute; reflexivity)) as H.
  cbv zeta in H. rewrite H. reflexivity.
Defined.

(** X21, witness: a short traceback is passed on as it is. *)
Lemma failure_trace_bounded_witness :
  String.length (format_exc demo_env (Exn RuntimeError "CUDA out of memory")) <= 200 /\
  truncate_trace (format_exc demo_env (Exn RuntimeError "CUDA out of memory"))
  = "Traceback (most recent call last): CUDA out of memory".
Proof.
  assert (H : String.length
                (format_exc demo_env (Exn RuntimeError "CUDA out of memory")) <= 200)
    by (vm_compute; lia).
  split; [exact H |].
  pose proof (failure_trace_bounded demo_env (Exn RuntimeError "CUDA out of memory"))
    as Hx.
  cbv zeta in Hx. destruct Hx as (_ & _ & Hshort & _).
  rewrite (Hshort H). reflexivity.
Defined.

(** X22, witness: the entry of ["alice"] in the listing of the sample
    installation. *)
Lemma listing_contents_witness :
  exists m,
    list_voices demo_env demo_world = (Ok m, demo_world) /\
    m !! "alice"
    = Some (JObj [("display_name", JStr "Alice");
                  ("model_dir", JStr "/voices/alt");
                  ("loaded", JBool false);
                  ("valid", JBool true)]).
Proof.
  destruct (listing_contents demo_env demo_world
              (mkArgs ActListVoices None None None "output.wav"))
    as (m & Hlist & _ & Hentry & _).
  exists m. split; [exact Hlist |].
  rewrite (Hentry "alice" (mkVoice "/voices/alt" "Alice") eq_refl).
  vm_compute. reflexivity.
Defined.

(** X23, witness. *)
Lemma listing_shows_loaded_engine_witness :
  get_tts demo_env (Some "alice") demo_world
  = (Ok (mkEngine 0 "/voices/alt" Cpu),
     (get_tts demo_env (Some "alice") demo_world).2) /\
  exists m entry,
    list_voices demo_env (get_tts demo_env (Some "alice") demo_world).2
    = (Ok m, (get_tts demo_env (Some "alice") demo_world).2) /\
    m !! "alice" = Some entry /\
    loaded_flag entry = Some (JBool true).
Proof.
  assert (Hg : get_tts demo_env (Some "alice") demo_world
               = (Ok (mkEngine 0 "/voices/alt" Cpu),
                  (get_tts demo_env (Some "alice") demo_world).2))
    by (vm_compute; reflexivity).
  split; [exact Hg |].
  exact (listing_shows_loaded_engine demo_env (Some "alice") demo_world _ _ Hg).
Defined.

